(** * The training loop of [train.py] and its progress record

    A shallow embedding of [TrainState] (lines 34-50) and of the loop of
    [main] (lines 148-252) of [train.py].

    - Python integers are [Z]; Python floats are IEEE binary64 values,
      taken from [SpecFloat] ([prec = 53], [emax = 1024]).
    - Exceptions are results of type [result]; a statement of the loop is a
      function from the loop's variables to a [result].
    - Calls to collaborators (data loader, model, optimizer, gradient
      scaler, profiler, metric logger, scheduler, checkpoint manager) are
      recorded, in program order, in a trace of events; what a collaborator
      returns is a function of the calls made so far.
    - Wall-clock time ([timer()]) is left out. *)

From Stdlib Require Import ZArith List Bool Lia.
From Stdlib Require Import Floats.SpecFloat.
Import ListNotations.
Open Scope Z_scope.

(** ** Exceptions *)

Inductive exn : Type :=
| StopIteration        (* next() on an exhausted iterator *)
| AttributeError       (* .append on an object that is not a list *)
| ZeroDivisionError    (* x % 0 *)
| UnboundLocalError    (* a local variable read before it is assigned *)
| ItemError            (* .item() on a tensor that has not exactly one element *)
| TensorValueError.    (* torch.tensor refused the value for the dtype *)

Inductive result (A : Type) : Type :=
| Ok (a : A)
| Raise (e : exn).
Arguments Ok {A} a.
Arguments Raise {A} e.

Definition bind {A B : Type} (r : result A) (k : A -> result B) : result B :=
  match r with
  | Ok a => k a
  | Raise e => Raise e
  end.

Notation "x <- c1 ;; c2" := (bind c1 (fun x => c2))
  (at level 61, c1 at next level, right associativity).

(** ** Python floats *)

Definition float : Type := spec_float.

(** The binary64 value [m * 2^e]. *)
Definition dyadic (m e : Z) : float := binary_normalize 53 1024 m e false.

(** The float an integer literal denotes where a float is expected. *)
Definition float_of_int (n : Z) : float := dyadic n 0.

(** ** Tensors

    Only ranks 0 and 1 occur in [TrainState]: [torch.tensor] of a Python
    scalar is a rank-0 tensor, of a list of scalars a rank-1 tensor. *)

Inductive tensor (A : Type) : Type :=
| Tensor0 (x : A)
| Tensor1 (xs : list A).
Arguments Tensor0 {A} x.
Arguments Tensor1 {A} xs.

(** [t.item()]: the only element of a one-element tensor. *)
Definition item {A : Type} (t : tensor A) : result A :=
  match t with
  | Tensor0 x => Ok x
  | Tensor1 [x] => Ok x
  | Tensor1 _ => Raise ItemError
  end.

(** What [t.tolist()] returns on a float tensor: a bare Python float for a
    rank-0 tensor, a list for a rank-1 tensor. *)
Inductive pyobj : Type :=
| PyFloat (x : float)
| PyList (xs : list float).

Definition tolist (t : tensor float) : pyobj :=
  match t with
  | Tensor0 x => PyFloat x
  | Tensor1 xs => PyList xs
  end.

(** [len(o)], where it is defined. *)
Definition len (o : pyobj) : option Z :=
  match o with
  | PyFloat _ => None
  | PyList xs => Some (Z.of_nat (length xs))
  end.

(** [o.append(x)]. *)
Definition append (o : pyobj) (x : float) : result pyobj :=
  match o with
  | PyFloat _ => Raise AttributeError
  | PyList xs => Ok (PyList (xs ++ [x]))
  end.

(** ** Conversions of [torch.tensor]

    [torch.tensor(v, dtype=...)] converts the Python scalar [v] to the
    dtype.  How it treats a value the dtype cannot hold is torch's business,
    so [state_dict] below takes the two conversions as parameters.  The
    examples use these two. *)

(** int32, refusing what is out of range. *)
Definition checked_int32 (n : Z) : result Z :=
  if (- 2 ^ 31 <=? n) && (n <? 2 ^ 31) then Ok n else Raise TensorValueError.

(** binary32 by rounding to nearest even, read back as a binary64. *)
Definition round_float32 (x : float) : result float :=
  Ok (SFldexp 53 1024 (SFldexp 24 128 x 0) 0).

(** ** TrainState (lines 34-50) *)

Record TrainState : Type := mkTrainState {
  step : Z;
  current_loss : float;
  (* annotated List[float]; [load_state_dict] stores what [tolist()] gives *)
  losses : pyobj
}.

(** [TrainState()]: the dataclass defaults [0], [-1], [[]].  The default of
    [current_loss] is written [-1]; it is read as the float it stands for. *)
Definition TrainState_default : TrainState :=
  {| step := 0; current_loss := float_of_int (-1); losses := PyList [] |}.

(** The dict [state_dict] returns and [load_state_dict] reads, with its
    three keys: an integer tensor and two float tensors.  A dict that lacks
    a key, or holds a tensor of another dtype under it, is not of this
    type. *)
Record StateDict : Type := mkStateDict {
  sd_step : tensor Z;
  sd_current_loss : tensor float;
  sd_losses : tensor float
}.

Section Snapshot.

(** [torch.tensor(n, dtype=torch.int32)] and
    [torch.tensor(x, dtype=torch.float32)] on Python scalars. *)
Variable tensor_int32 : Z -> result Z.
Variable tensor_float32 : float -> result float.

(** Lines 40-45.  The entry ["losses"] is built from [self.current_loss]. *)
Definition state_dict (self : TrainState) : result StateDict :=
  s <- tensor_int32 (step self) ;;
  c <- tensor_float32 (current_loss self) ;;
  l <- tensor_float32 (current_loss self) ;;
  Ok {| sd_step := Tensor0 s;
        sd_current_loss := Tensor0 c;
        sd_losses := Tensor0 l |}.

End Snapshot.

(** Lines 47-50.  The three fields of [self] are assigned in turn; the value
    returned is [self] after the call.  When [item()] raises, the object is
    left as the assignments before it made it; that object is not returned
    here. *)
Definition load_state_dict (self : TrainState) (state_dict : StateDict)
  : result TrainState :=
  s <- item (sd_step state_dict) ;;
  let self := {| step := s; current_loss := current_loss self;
                 losses := losses self |} in
  c <- item (sd_current_loss state_dict) ;;
  let self := {| step := step self; current_loss := c;
                 losses := losses self |} in
  Ok {| step := step self; current_loss := current_loss self;
        losses := tolist (sd_losses state_dict) |}.

(** ** The iterator protocol

    [iter(x)] makes a new iterator over [x]; [next(it)] yields the element
    under the cursor and the iterator moved past it, or nothing when the
    iterator is exhausted. *)

Class Iterable (L B : Type) : Type := {
  iterator : Type;
  iter : L -> iterator;
  next : iterator -> option (B * iterator)
}.

#[global] Instance list_Iterable (B : Type) : Iterable (list B) B := {
  iterator := list B;
  iter l := l;
  next it := match it with
             | [] => None
             | b :: it' => Some (b, it')
             end
}.

(** ** Configuration read by the loop *)

Record JobConfig : Type := mkJobConfig {
  training_steps : Z;       (* job_config.training.steps *)
  metrics_log_freq : Z      (* job_config.metrics.log_freq *)
}.

(** ** The loop of [main] (lines 148-252) *)

Section TrainLoop.

Context {Batch Loader : Type} {loader_iterable : Iterable Loader Batch}.

(** Calls to collaborators, as the loop makes them. [CheckpointSave]
    carries, besides the two arguments of the call, the content of the
    [train_state] object at the time of the call: the checkpoint manager was
    given a reference to that object (line 156).  [MetricLog] carries the
    window and the word count the metrics are computed from. *)
Inductive event : Type :=
| NextBatch (b : Batch)              (* next(iter(data_loader)) gave b *)
| ZeroGrad                           (* optimizer.zero_grad() *)
| Forward (b : Batch) (l : float)    (* model(input_ids), cross entropy, mean *)
| Backward                           (* scaler.scale(loss).backward() *)
| Unscale                            (* scaler.unscale_(optimizer) *)
| ClipGradNorm                       (* model.clip_grad_norm_(max_norm) *)
| OptimizerStep                      (* scaler.step ran optimizer.step() *)
| OptimizerSkipped                   (* scaler.step skipped optimizer.step() *)
| ScalerUpdate                       (* scaler.update() *)
| ProfilerStep                       (* torch_profiler.step() *)
| MetricLog (s : Z) (window : list float) (nwords : Z)
                                     (* metric_logger.log(metrics, step=s) *)
| Rank0Log (s : Z) (l : float)       (* rank0_log(step, current loss, lr) *)
| SchedulerStep                      (* scheduler.step() *)
| CheckpointSave (s : Z) (force : bool) (visible : TrainState).
                                     (* checkpoint.save(s, force=force) *)

(** What [main] has built before the loop (lines 79-165). *)
Record Env : Type := mkEnv {
  job_config : JobConfig;
  data_loader : Loader;
  (* labels.numel() *)
  numel : Batch -> Z;
  (* loss.item() of the loss the model computes on a batch, given the calls
     made so far *)
  forward_loss : list event -> Batch -> float;
  (* whether the scaler finds infs or NaNs in the unscaled gradients *)
  found_inf : list event -> bool;
  (* truth value of torch_profiler *)
  profiler_active : bool;
  (* what checkpoint.load() (line 165) does to the train_state object it was
     given: nothing on a run with no checkpoint, a load_state_dict otherwise *)
  checkpoint_load : TrainState -> result TrainState
}.

Variable env : Env.

(** The variables of [main] the loop reads and writes. *)
Record LoopState : Type := mkLoopState {
  train_state : TrainState;
  losses_since_last_log : list float;
  nwords_since_last_log : Z;
  batch : option Batch;
  loss : option float;
  trace : list event
}.

Definition set_train_state (ts : TrainState) (st : LoopState) : LoopState :=
  {| train_state := ts;
     losses_since_last_log := losses_since_last_log st;
     nwords_since_last_log := nwords_since_last_log st;
     batch := batch st; loss := loss st; trace := trace st |}.

Definition set_window (w : list float) (n : Z) (st : LoopState) : LoopState :=
  {| train_state := train_state st;
     losses_since_last_log := w;
     nwords_since_last_log := n;
     batch := batch st; loss := loss st; trace := trace st |}.

Definition set_batch (b : Batch) (st : LoopState) : LoopState :=
  {| train_state := train_state st;
     losses_since_last_log := losses_since_last_log st;
     nwords_since_last_log := nwords_since_last_log st;
     batch := Some b; loss := loss st; trace := trace st |}.

Definition set_loss (l : float) (st : LoopState) : LoopState :=
  {| train_state := train_state st;
     losses_since_last_log := losses_since_last_log st;
     nwords_since_last_log := nwords_since_last_log st;
     batch := batch st; loss := Some l; trace := trace st |}.

Definition emit (e : event) (st : LoopState) : LoopState :=
  {| train_state := train_state st;
     losses_since_last_log := losses_since_last_log st;
     nwords_since_last_log := nwords_since_last_log st;
     batch := batch st; loss := loss st; trace := trace st ++ [e] |}.

Definition read {A : Type} (local : option A) : result A :=
  match local with
  | Some a => Ok a
  | None => Raise UnboundLocalError
  end.

Definition stmt : Type := LoopState -> result LoopState.

(** Line 174. *)
Definition inc_step : stmt := fun st =>
  let ts := train_state st in
  Ok (set_train_state {| step := step ts + 1;
                         current_loss := current_loss ts;
                         losses := losses ts |} st).

(** Lines 176-179: a new iterator every time; the iterator left by [next] is
    dropped. *)
Definition get_batch : stmt := fun st =>
  match next (iter (data_loader env)) with
  | None => Raise StopIteration
  | Some (b, _) => Ok (emit (NextBatch b) (set_batch b st))
  end.

(** Line 180. *)
Definition count_words : stmt := fun st =>
  b <- read (batch st) ;;
  Ok (set_window (losses_since_last_log st)
                 (nwords_since_last_log st + numel env b) st).

(** Line 182. *)
Definition zero_grad : stmt := fun st => Ok (emit ZeroGrad st).

(** Lines 185-189. *)
Definition forward : stmt := fun st =>
  b <- read (batch st) ;;
  let l := forward_loss env (trace st) b in
  Ok (emit (Forward b l) (set_loss l st)).

(** Line 192. *)
Definition backward : stmt := fun st =>
  _ <- read (loss st) ;;
  Ok (emit Backward st).

(** Line 195. *)
Definition unscale : stmt := fun st => Ok (emit Unscale st).

(** Line 196. *)
Definition clip_grad_norm : stmt := fun st => Ok (emit ClipGradNorm st).

(** Lines 199-201: [optimizer.step()] is called unless the gradients contain
    infs or NaNs. *)
Definition scaler_step : stmt := fun st =>
  if found_inf env (trace st)
  then Ok (emit OptimizerSkipped st)
  else Ok (emit OptimizerStep st).

(** Line 204. *)
Definition scaler_update : stmt := fun st => Ok (emit ScalerUpdate st).

(** Lines 207-208. *)
Definition profiler_step : stmt := fun st =>
  if profiler_active env then Ok (emit ProfilerStep st) else Ok st.

(** Line 210. *)
Definition set_current_loss : stmt := fun st =>
  l <- read (loss st) ;;
  let ts := train_state st in
  Ok (set_train_state {| step := step ts; current_loss := l;
                         losses := losses ts |} st).

(** Line 211. *)
Definition append_losses : stmt := fun st =>
  let ts := train_state st in
  ls <- append (losses ts) (current_loss ts) ;;
  Ok (set_train_state {| step := step ts;
                         current_loss := current_loss ts;
                         losses := ls |} st).

(** Line 212. *)
Definition append_window : stmt := fun st =>
  Ok (set_window
        (losses_since_last_log st ++ [current_loss (train_state st)])
        (nwords_since_last_log st) st).

(** Lines 215-245.  The record is computed from the window and the word
    count; the elapsed time it is divided by is left out, and the division
    is taken to succeed. *)
Definition log_metrics : stmt := fun st =>
  let f := metrics_log_freq (job_config env) in
  if f =? 0 then Raise ZeroDivisionError
  else if (step (train_state st) - 1) mod f =? 0
  then
    let st := emit (MetricLog (step (train_state st))
                              (losses_since_last_log st)
                              (nwords_since_last_log st)) st in
    Ok (set_window [] 0 st)
  else Ok st.

(** Lines 247-249. *)
Definition rank0_log : stmt := fun st =>
  Ok (emit (Rank0Log (step (train_state st))
                     (current_loss (train_state st))) st).

(** Line 250. *)
Definition scheduler_step : stmt := fun st => Ok (emit SchedulerStep st).

(** Line 252. *)
Definition checkpoint_save : stmt := fun st =>
  let s := step (train_state st) in
  Ok (emit (CheckpointSave s (s =? training_steps (job_config env))
                           (train_state st)) st).

(** The body of the [while], statement by statement. *)
Definition body : list stmt :=
  [ inc_step; get_batch; count_words; zero_grad; forward; backward;
    unscale; clip_grad_norm; scaler_step; scaler_update; profiler_step;
    set_current_loss; append_losses; append_window; log_metrics;
    rank0_log; scheduler_step; checkpoint_save ].

Fixpoint run (stmts : list stmt) (st : LoopState) : result LoopState :=
  match stmts with
  | [] => Ok st
  | s :: rest => st' <- s st ;; run rest st'
  end.

(** One pass through the body. *)
Definition iteration : stmt := run body.

(** The first [k] statements of the body. *)
Definition point (k : nat) : stmt := run (firstn k body).

(** Line 173. *)
Definition guard (st : LoopState) : bool :=
  (step (train_state st) <? training_steps (job_config env))
  || (training_steps (job_config env) =? -1).

(** Where the loop stands when the model stops following it: it has left the
    [while], or it is about to enter the body once more. *)
Inductive outcome : Type :=
| Finished (st : LoopState)
| Running (st : LoopState).

(** The [while] of line 173, followed for at most [fuel] iterations. *)
Fixpoint train_loop (fuel : nat) (st : LoopState) : result outcome :=
  if guard st then
    match fuel with
    | O => Ok (Running st)
    | S fuel' => st' <- iteration st ;; train_loop fuel' st'
    end
  else Ok (Finished st).

(** [n] passes through the body, whatever the guard says. *)
Fixpoint iterations (n : nat) (st : LoopState) : result LoopState :=
  match n with
  | O => Ok st
  | S n' => st' <- iteration st ;; iterations n' st'
  end.

(** Lines 167-172: the variables on entering the loop.  Calls made before
    the loop are not recorded. *)
Definition loop_entry (ts : TrainState) : LoopState :=
  {| train_state := ts;
     losses_since_last_log := [];
     nwords_since_last_log := 0;
     batch := None; loss := None; trace := [] |}.

(** Lines 148-252. *)
Definition main (fuel : nat) : result outcome :=
  let train_state := TrainState_default in
  train_state <- checkpoint_load env train_state ;;
  train_loop fuel (loop_entry train_state).

(** *** Reading a trace *)

(** The steps at which a metric record was emitted. *)
Fixpoint metric_steps (tr : list event) : list Z :=
  match tr with
  | [] => []
  | MetricLog s _ _ :: tr' => s :: metric_steps tr'
  | _ :: tr' => metric_steps tr'
  end.

(** The batches the data loader handed out. *)
Fixpoint fetched (tr : list event) : list Batch :=
  match tr with
  | [] => []
  | NextBatch b :: tr' => b :: fetched tr'
  | _ :: tr' => fetched tr'
  end.

(** The save requests, with their force flag. *)
Fixpoint saves (tr : list event) : list (Z * bool) :=
  match tr with
  | [] => []
  | CheckpointSave s force _ :: tr' => (s, force) :: saves tr'
  | _ :: tr' => saves tr'
  end.

Definition is_scheduler_step (e : event) : bool :=
  match e with SchedulerStep => true | _ => false end.

Definition is_optimizer_step (e : event) : bool :=
  match e with OptimizerStep => true | _ => false end.

Definition is_fetch_or_save (e : event) : bool :=
  match e with NextBatch _ | CheckpointSave _ _ _ => true | _ => false end.

(** The calls that hand the step or the loss to a collaborator. *)
Definition shows_train_state (e : event) : bool :=
  match e with
  | MetricLog _ _ _ | Rank0Log _ _ | CheckpointSave _ _ _ => true
  | _ => false
  end.

Definition count (p : event -> bool) (tr : list event) : nat :=
  length (filter p tr).

(** *** What one iteration amounts to

    The iteration entered in state [st], when the loader hands out [b] and
    [losses] holds the list [xs]. *)

Definition loss_of (st : LoopState) (b : Batch) : float :=
  forward_loss env (trace st ++ [NextBatch b; ZeroGrad]) b.

Definition compute_events (st : LoopState) (b : Batch) : list event :=
  [NextBatch b; ZeroGrad; Forward b (loss_of st b);
   Backward; Unscale; ClipGradNorm].

Definition skipped (st : LoopState) (b : Batch) : bool :=
  found_inf env (trace st ++ compute_events st b).

Definition optimizer_events (st : LoopState) (b : Batch) : list event :=
  [if skipped st b then OptimizerSkipped else OptimizerStep; ScalerUpdate]
  ++ (if profiler_active env then [ProfilerStep] else []).

Definition logs_at (s : Z) : bool :=
  (s - 1) mod metrics_log_freq (job_config env) =? 0.

Definition advanced (st : LoopState) (b : Batch) (xs : list float)
  : TrainState :=
  {| step := step (train_state st) + 1;
     current_loss := loss_of st b;
     losses := PyList (xs ++ [loss_of st b]) |}.

Definition report_events (st : LoopState) (b : Batch) : list event :=
  let s := step (train_state st) + 1 in
  (if logs_at s
   then [MetricLog s (losses_since_last_log st ++ [loss_of st b])
                     (nwords_since_last_log st + numel env b)]
   else [])
  ++ [Rank0Log s (loss_of st b); SchedulerStep].

Definition save_event (st : LoopState) (b : Batch) (xs : list float)
  : event :=
  let s := step (train_state st) + 1 in
  CheckpointSave s (s =? training_steps (job_config env)) (advanced st b xs).

Definition iteration_events (st : LoopState) (b : Batch) (xs : list float)
  : list event :=
  compute_events st b ++ optimizer_events st b
  ++ report_events st b ++ [save_event st b xs].

Definition after_iteration (st : LoopState) (b : Batch) (xs : list float)
  : LoopState :=
  let s := step (train_state st) + 1 in
  {| train_state := advanced st b xs;
     losses_since_last_log :=
       if logs_at s then []
       else losses_since_last_log st ++ [loss_of st b];
     nwords_since_last_log :=
       if logs_at s then 0
       else nwords_since_last_log st + numel env b;
     batch := Some b;
     loss := Some (loss_of st b);
     trace := trace st ++ iteration_events st b xs |}.

(** [n] iterations in a row. *)
Fixpoint after_iterations (n : nat) (st : LoopState) (b : Batch)
  (xs : list float) : LoopState :=
  match n with
  | O => st
  | S n' => after_iterations n' (after_iteration st b xs) b
                             (xs ++ [loss_of st b])
  end.

Definition outcome_state (o : outcome) : LoopState :=
  match o with
  | Finished st => st
  | Running st => st
  end.

(** The steps [s0 + 1, ..., s0 + n]. *)
Definition steps_after (s0 : Z) (n : nat) : list Z :=
  map (fun i => s0 + Z.of_nat i) (seq 1 n).

End TrainLoop.

Arguments event : clear implicits.
Arguments Env : clear implicits.
Arguments LoopState : clear implicits.
Arguments outcome : clear implicits.
Arguments stmt : clear implicits.

(** ** A sample run

    A loader of two batches of labels, a loss that grows with the number of
    calls made, a scaler that finds a non-finite gradient in the second
    iteration; ten steps, a metric record every five. *)

Module Sample.

Definition Batch : Type := list Z.

Definition cfg : JobConfig :=
  {| training_steps := 10; metrics_log_freq := 5 |}.

Definition first : Batch := [11; 12; 13].
Definition others : list Batch := [[21; 22]].

Definition env : Env Batch (list Batch) :=
  {| job_config := cfg;
     data_loader := first :: others;
     numel := fun b => Z.of_nat (length b);
     forward_loss := fun tr _ => dyadic (Z.of_nat (length tr)) (-2);
     found_inf := fun tr => Nat.eqb (length tr) 18;
     profiler_active := false;
     checkpoint_load := fun ts => Ok ts |}.

(** The same run with no bound on the number of steps. *)
Definition env_forever : Env Batch (list Batch) :=
  {| job_config := {| training_steps := -1; metrics_log_freq := 5 |};
     data_loader := data_loader env;
     numel := numel env;
     forward_loss := forward_loss env;
     found_inf := found_inf env;
     profiler_active := profiler_active env;
     checkpoint_load := checkpoint_load env |}.

Definition half : float := dyadic 1 (-1).

(** The binary64 nearest to one tenth. *)
Definition tenth : float := dyadic 3602879701896397 (-55).

(** A state after one step. *)
Definition after_one_step : TrainState :=
  {| step := 1; current_loss := half; losses := PyList [half] |}.

(** The variables of the sample run after its first iteration. *)
Definition after_first : LoopState Batch :=
  match iteration env (loop_entry TrainState_default) with
  | Ok st => st
  | Raise _ => loop_entry TrainState_default
  end.

(** A record whose step is not the length of its losses. *)
Definition mismatched : StateDict :=
  {| sd_step := Tensor0 3;
     sd_current_loss := Tensor0 half;
     sd_losses := Tensor1 [half] |}.

End Sample.

(** ** What the further facts are stated with *)

(** [t.numel()]. *)
Definition numel_of {A : Type} (t : tensor A) : nat :=
  match t with
  | Tensor0 _ => 1
  | Tensor1 xs => length xs
  end.

(** Snapshot, then restore into [self]. *)
Definition round_trip (tensor_int32 : Z -> result Z)
  (tensor_float32 : float -> result float) (self s : TrainState)
  : result TrainState :=
  sd <- state_dict tensor_int32 tensor_float32 s ;;
  load_state_dict self sd.

Section Invariants.

Context {Batch Loader : Type}.
Variable env : Env Batch Loader.

Definition is_profiler_step (e : event Batch) : bool :=
  match e with ProfilerStep => true | _ => false end.

Definition is_optimizer_skipped (e : event Batch) : bool :=
  match e with OptimizerSkipped => true | _ => false end.

(** The calls that touch the gradients or the optimizer. *)
Definition is_gradient_call (e : event Batch) : bool :=
  match e with
  | ZeroGrad | Forward _ _ | Backward | Unscale | ClipGradNorm
  | OptimizerStep | OptimizerSkipped | ScalerUpdate => true
  | _ => false
  end.

(** A metric record that covers one step when it is the record of step 1
    and [f] steps otherwise, and counts [words] words for each step it
    covers. *)
Definition metric_record_ok (f words : Z) (e : event Batch) : Prop :=
  match e with
  | MetricLog s window nwords =>
      Z.of_nat (length window) = (if s =? 1 then 1 else f) /\
      nwords = Z.of_nat (length window) * words
  | _ => True
  end.

(** A save asked for step [s] while the state holds step [s] and [s]
    losses, forced exactly at step [total]. *)
Definition save_record_ok (total : Z) (e : event Batch) : Prop :=
  match e with
  | CheckpointSave s force ts =>
      step ts = s /\ len (losses ts) = Some s /\ force = (s =? total)
  | _ => True
  end.

(** Between iterations of a run with logging frequency [f] on batches
    [b]: the window is the tail of [losses] recorded since the last metric
    record, the word count is that of the window, and the records emitted
    so far are as [metric_record_ok] says. *)
Definition window_inv (f : Z) (b : Batch) (st : LoopState Batch)
  (xs : list float) : Prop :=
  losses (train_state st) = PyList xs /\
  step (train_state st) = Z.of_nat (length xs) /\
  (exists pre, xs = pre ++ losses_since_last_log st) /\
  nwords_since_last_log st
  = Z.of_nat (length (losses_since_last_log st)) * numel env b /\
  (step (train_state st) = 0 \/
   Z.of_nat (length (losses_since_last_log st))
   = (step (train_state st) - 1) mod f) /\
  Forall (metric_record_ok f (numel env b)) (trace st).

(** Between iterations: the state holds as many losses as steps, and the
    saves asked for so far are as [save_record_ok] says. *)
Definition save_inv (st : LoopState Batch) (xs : list float) : Prop :=
  losses (train_state st) = PyList xs /\
  step (train_state st) = Z.of_nat (length xs) /\
  Forall (save_record_ok (training_steps (job_config env))) (trace st).

End Invariants.

(** ** More sample runs *)

Module Cases.

Definition with_job_config (cfg : JobConfig)
  (e : Env Sample.Batch (list Sample.Batch))
  : Env Sample.Batch (list Sample.Batch) :=
  {| job_config := cfg;
     data_loader := data_loader e;
     numel := numel e;
     forward_loss := forward_loss e;
     found_inf := found_inf e;
     profiler_active := profiler_active e;
     checkpoint_load := checkpoint_load e |}.

(** No step to make. *)
Definition env_no_steps : Env Sample.Batch (list Sample.Batch) :=
  with_job_config {| training_steps := 0; metrics_log_freq := 5 |}
                  Sample.env.

(** A logging frequency of zero. *)
Definition env_log_freq_zero : Env Sample.Batch (list Sample.Batch) :=
  with_job_config {| training_steps := 10; metrics_log_freq := 0 |}
                  Sample.env.

(** A negative logging frequency. *)
Definition env_log_freq_negative : Env Sample.Batch (list Sample.Batch) :=
  with_job_config {| training_steps := 10; metrics_log_freq := -5 |}
                  Sample.env.

(** A loader with no batch. *)
Definition env_empty_loader : Env Sample.Batch (list Sample.Batch) :=
  {| job_config := Sample.cfg;
     data_loader := [];
     numel := numel Sample.env;
     forward_loss := forward_loss Sample.env;
     found_inf := found_inf Sample.env;
     profiler_active := false;
     checkpoint_load := fun ts => Ok ts |}.

(** An active profiler. *)
Definition env_profiled : Env Sample.Batch (list Sample.Batch) :=
  {| job_config := Sample.cfg;
     data_loader := data_loader Sample.env;
     numel := numel Sample.env;
     forward_loss := forward_loss Sample.env;
     found_inf := found_inf Sample.env;
     profiler_active := true;
     checkpoint_load := fun ts => Ok ts |}.

(** A state as [load_state_dict] leaves it after a snapshot. *)
Definition restored : TrainState :=
  {| step := 1; current_loss := Sample.half;
     losses := PyFloat Sample.half |}.

(** A run that finds the snapshot taken after one step. *)
Definition env_resumed : Env Sample.Batch (list Sample.Batch) :=
  {| job_config := Sample.cfg;
     data_loader := data_loader Sample.env;
     numel := numel Sample.env;
     forward_loss := forward_loss Sample.env;
     found_inf := found_inf Sample.env;
     profiler_active := false;
     checkpoint_load := fun ts =>
       round_trip checked_int32 round_float32 ts Sample.after_one_step |}.

(** A state three steps in that holds the losses of three steps, and one
    that holds a single loss. *)
Definition three_steps_in : TrainState :=
  {| step := 3; current_loss := Sample.half;
     losses := PyList [Sample.half; Sample.half; Sample.half] |}.

Definition three_steps_one_loss : TrainState :=
  {| step := 3; current_loss := Sample.half;
     losses := PyList [Sample.half] |}.

End Cases.

(** ** Before the loop: [build_optimizer], [build_grad_scaler] and lines
    79-164 of [main]

    What [main] does before it loads a checkpoint is a sequence of table
    look-ups and of calls that build collaborators.  The calls are recorded
    in a trace, as the calls of the loop are, and are taken to return; the
    look-ups, the assertion (with assertions on) and [build_optimizer] can
    raise, and the trace then tells how far [main] got. *)

From Stdlib Require String.

Module Setup.

Import String.

Inductive setup_exn : Type :=
| KeyError (key : string)              (* d[key] with no such key *)
| ValueError (text : string)           (* int(text) on text that is no integer *)
| AssertionError                       (* assert on a false condition *)
| NotImplementedError (message : string).

Inductive answer (A : Type) : Type :=
| Returned (a : A)
| Raised (e : setup_exn).
Arguments Returned {A} a.
Arguments Raised {A} e.

Inductive torch_dtype : Type := float16 | bfloat16 | float32.

Definition torch_dtype_eqb (d1 d2 : torch_dtype) : bool :=
  match d1, d2 with
  | float16, float16 | bfloat16, bfloat16 | float32, float32 => true
  | _, _ => false
  end.

Inductive IntervalType : Type := SECONDS | STEPS.

Inductive optimizer_class : Type := Adam | AdamW.

(** The fields of [job_config] read on lines 79-164. *)
Record SetupConfig : Type := mkSetupConfig {
  data_parallel_degree : Z;
  sequence_parallel_degree : Z;
  pipeline_parallel_degree : Z;
  model_name : string;
  model_config_name : string;          (* job_config.model.config *)
  tokenizer_path : string;
  dataset : string;
  batch_size : Z;
  seq_len : Z;
  optimizer_name : string;
  optimizer_lr : float;
  compile : bool;
  checkpoint_folder : string;
  checkpoint_interval_type : string;
  checkpoint_interval : Z
}.

Section WithTables.

(** What the tables of [torchtrain] hold: a kind of tokenizer, a function
    that builds a data loader, a model class, a function that applies the
    parallelisms, and the arguments of a model other than its vocabulary
    size. *)
Context {Tokenizer LoaderFn ModelCls ParallelizeFn OtherArgs : Type}.

Record ModelArgs : Type := mkModelArgs {
  vocab_size : Z;
  other_args : OtherArgs
}.

Inductive log_line : Type :=
| Building (name : string)                      (* line 92 *)
| ModelSize (name config : string) (count : Z)  (* lines 121-123 *)
| GpuMemoryUsage                                (* line 125 *)
| CompilingModel (name : string)                (* line 143 *)
| Text (s : string).                            (* a constant message *)

Inductive setup_event : Type :=
| InitLogger
| NewParallelDims (dp sp pp world_size : Z)
| BuildMesh
| Log (l : log_line)
| CreateTokenizer (t : Tokenizer) (path : string)
| BuildDataLoader (fn : LoaderFn) (batch_size seq_len dp_degree dp_rank : Z)
| FromModelArgs (cls : ModelCls) (args : ModelArgs)
| GetNumParams
| NewGPUMemoryMonitor
| Parallelize (fn : ParallelizeFn)
| NewOptimizer (c : optimizer_class) (lr : float)
| GetLrScheduler
| NewGradScaler (enabled : bool)
| BuildMetricLogger
| TorchCompile
| ModelTrain
| NewCheckpointManager (folder : string) (t : IntervalType) (interval : Z).

(** The process environment, the tables imported from [torchtrain], and
    what the collaborators built on the way answer when asked. *)
Record World : Type := mkWorld {
  environ : string -> option string;
  (* int(text): None when text is no integer *)
  int_of : string -> option Z;
  model_name_to_tokenizer : string -> option Tokenizer;
  dataloader_fn : string -> option LoaderFn;
  model_name_to_cls : string -> option ModelCls;
  models_config : string -> option (string -> option ModelArgs);
  models_parallelize_fns : string -> option ParallelizeFn;
  (* world_mesh.size(0) and world_mesh.get_local_rank(0) *)
  mesh_size_0 : Z;
  mesh_local_rank_0 : Z;
  (* tokenizer.n_words *)
  n_words : Tokenizer -> string -> Z;
  (* get_num_params(model) *)
  num_params : Z;
  (* isinstance(model, FSDP) and model.mixed_precision.param_dtype, of the
     model a parallelize function returns *)
  is_fsdp : ParallelizeFn -> bool;
  param_dtype : ParallelizeFn -> option torch_dtype
}.

(** A computation that adds to the trace and returns or raises. *)
Definition M (A : Type) : Type :=
  list setup_event -> list setup_event * answer A.

Definition ret {A : Type} (a : A) : M A := fun tr => (tr, Returned a).

Definition raise {A : Type} (e : setup_exn) : M A :=
  fun tr => (tr, Raised e).

Definition sbind {A B : Type} (m : M A) (k : A -> M B) : M B :=
  fun tr =>
    match m tr with
    | (tr', Returned a) => k a tr'
    | (tr', Raised e) => (tr', Raised e)
    end.

Notation "x <~ c1 ;; c2" := (sbind c1 (fun x => c2))
  (at level 61, c1 at next level, right associativity).

Definition call (e : setup_event) : M unit :=
  fun tr => (tr ++ [e], Returned tt).

(** [d[key]]. *)
Definition getitem {A : Type} (d : string -> option A) (key : string) : M A :=
  match d key with
  | Some a => ret a
  | None => raise (KeyError key)
  end.

(** [int(text)]. *)
Definition int (w : World) (text : string) : M Z :=
  match int_of w text with
  | Some n => ret n
  | None => raise (ValueError text)
  end.

(** Lines 53-64. *)
Definition build_optimizer (cfg : SetupConfig) : M optimizer_class :=
  let name := optimizer_name cfg in
  let lr := optimizer_lr cfg in
  if String.eqb name "Adam"%string then
    _ <~ call (NewOptimizer Adam lr) ;; ret Adam
  else if String.eqb name "AdamW"%string then
    _ <~ call (NewOptimizer AdamW lr) ;; ret AdamW
  else
    raise (NotImplementedError
             ("optimizer " ++ name ++ " not added")%string).

Definition is_float16 (d : option torch_dtype) : bool :=
  match d with
  | Some d => torch_dtype_eqb d float16
  | None => false
  end.

(** Lines 67-76; the value returned is the [enabled] of the scaler. *)
Definition build_grad_scaler (model_param_dtype : option torch_dtype)
  : M bool :=
  enable_grad_scaling <~
    (if is_float16 model_param_dtype then
       _ <~ call (Log (Text
              "Enabling gradient scaling for mixed precision training."%string)) ;;
       ret true
     else
       _ <~ call (Log (Text "Gradient scaling not enabled."%string)) ;;
       ret false) ;;
  _ <~ call (NewGradScaler enable_grad_scaling) ;;
  ret enable_grad_scaling.

(** What lines 79-164 leave for the loop. *)
Record Built : Type := mkBuilt {
  built_world_size : Z;
  built_model_args : ModelArgs;
  built_optimizer : optimizer_class;
  built_scaler_enabled : bool;
  built_compiled : bool;
  built_train_state : TrainState;
  built_interval_type : IntervalType
}.

(** Lines 79-164 of [main]. *)
Definition setup (w : World) (job_config : SetupConfig) : M Built :=
  _ <~ call InitLogger ;;
  text <~ getitem (environ w) "WORLD_SIZE"%string ;;
  world_size <~ int w text ;;
  _ <~ call (NewParallelDims (data_parallel_degree job_config)
                             (sequence_parallel_degree job_config)
                             (pipeline_parallel_degree job_config)
                             world_size) ;;
  _ <~ call BuildMesh ;;
  let name := model_name job_config in
  _ <~ call (Log (Building name)) ;;
  tokenizer_type <~ getitem (model_name_to_tokenizer w) name ;;
  _ <~ call (CreateTokenizer tokenizer_type (tokenizer_path job_config)) ;;
  let dp_degree := mesh_size_0 w in
  let dp_rank := mesh_local_rank_0 w in
  build_dataloader_fn <~ getitem (dataloader_fn w) (dataset job_config) ;;
  _ <~ call (BuildDataLoader build_dataloader_fn (batch_size job_config)
                             (seq_len job_config) dp_degree dp_rank) ;;
  model_cls <~ getitem (model_name_to_cls w) name ;;
  by_config <~ getitem (models_config w) name ;;
  model_config <~ getitem by_config (model_config_name job_config) ;;
  let model_config :=
    {| vocab_size := n_words w tokenizer_type (tokenizer_path job_config);
       other_args := other_args model_config |} in
  _ <~ call (FromModelArgs model_cls model_config) ;;
  _ <~ call GetNumParams ;;
  _ <~ call (Log (ModelSize name (model_config_name job_config)
                            (num_params w))) ;;
  _ <~ call NewGPUMemoryMonitor ;;
  _ <~ call (Log GpuMemoryUsage) ;;
  parallelize <~ getitem (models_parallelize_fns w) name ;;
  _ <~ call (Parallelize parallelize) ;;
  _ <~ (if is_fsdp w parallelize then ret tt else raise AssertionError) ;;
  optimizer <~ build_optimizer job_config ;;
  _ <~ call GetLrScheduler ;;
  scaler <~ build_grad_scaler (param_dtype w parallelize) ;;
  _ <~ call BuildMetricLogger ;;
  _ <~ (if compile job_config then
          _ <~ call (Log (CompilingModel name)) ;;
          call TorchCompile
        else ret tt) ;;
  let train_state := TrainState_default in
  _ <~ call ModelTrain ;;
  let interval_type :=
    if String.eqb (checkpoint_interval_type job_config) "seconds"%string
    then SECONDS else STEPS in
  _ <~ call (NewCheckpointManager (checkpoint_folder job_config)
                                  interval_type
                                  (checkpoint_interval job_config)) ;;
  ret {| built_world_size := world_size;
         built_model_args := model_config;
         built_optimizer := optimizer;
         built_scaler_enabled := scaler;
         built_compiled := compile job_config;
         built_train_state := train_state;
         built_interval_type := interval_type |}.

(** Whether an event builds something that training needs after the model
    has been checked: optimizer, scheduler, scaler, metric logger, compiled
    model, checkpoint manager. *)
Definition after_assert (e : setup_event) : bool :=
  match e with
  | NewOptimizer _ _ | GetLrScheduler | NewGradScaler _ | BuildMetricLogger
  | TorchCompile | ModelTrain | NewCheckpointManager _ _ _ => true
  | _ => false
  end.

Definition is_checkpoint_manager (e : setup_event) : bool :=
  match e with NewCheckpointManager _ _ _ => true | _ => false end.

Definition is_torch_compile (e : setup_event) : bool :=
  match e with TorchCompile => true | _ => false end.

End WithTables.

Arguments ModelArgs : clear implicits.
Arguments setup_event : clear implicits.
Arguments World : clear implicits.
Arguments Built : clear implicits.
Arguments M : clear implicits.

End Setup.

(** A world with one model, ["debugmodel"], one dataset, ["alpaca"], and
    four processes; and a job on it. *)

Module SampleSetup.

Import String.

Definition lookup1 {A : Type} (key : string) (a : A) : string -> option A :=
  fun k => if String.eqb k key then Some a else None.

Definition world : Setup.World string string string string unit :=
  {| Setup.environ := lookup1 "WORLD_SIZE"%string "4"%string;
     Setup.int_of := lookup1 "4"%string 4;
     Setup.model_name_to_tokenizer :=
       lookup1 "debugmodel"%string "sentencepiece"%string;
     Setup.dataloader_fn :=
       lookup1 "alpaca"%string "build_alpaca_data_loader"%string;
     Setup.model_name_to_cls :=
       lookup1 "debugmodel"%string "Transformer"%string;
     Setup.models_config :=
       lookup1 "debugmodel"%string
         (lookup1 "small"%string
            {| Setup.vocab_size := -1; Setup.other_args := tt |});
     Setup.models_parallelize_fns :=
       lookup1 "debugmodel"%string "parallelize_debugmodel"%string;
     Setup.mesh_size_0 := 4;
     Setup.mesh_local_rank_0 := 0;
     Setup.n_words := fun _ _ => 32000;
     Setup.num_params := 1000;
     Setup.is_fsdp := fun _ => true;
     Setup.param_dtype := fun _ => Some Setup.bfloat16 |}.

Definition job : Setup.SetupConfig :=
  {| Setup.data_parallel_degree := 4;
     Setup.sequence_parallel_degree := 1;
     Setup.pipeline_parallel_degree := 1;
     Setup.model_name := "debugmodel"%string;
     Setup.model_config_name := "small"%string;
     Setup.tokenizer_path := "tokenizer.model"%string;
     Setup.dataset := "alpaca"%string;
     Setup.batch_size := 8;
     Setup.seq_len := 2048;
     Setup.optimizer_name := "AdamW"%string;
     Setup.optimizer_lr := dyadic 1 (-10);
     Setup.compile := false;
     Setup.checkpoint_folder := "ckpt"%string;
     Setup.checkpoint_interval_type := "steps"%string;
     Setup.checkpoint_interval := 5 |}.

(** The same job with an optimizer [build_optimizer] does not know. *)
Definition job_sgd : Setup.SetupConfig :=
  {| Setup.data_parallel_degree := 4;
     Setup.sequence_parallel_degree := 1;
     Setup.pipeline_parallel_degree := 1;
     Setup.model_name := "debugmodel"%string;
     Setup.model_config_name := "small"%string;
     Setup.tokenizer_path := "tokenizer.model"%string;
     Setup.dataset := "alpaca"%string;
     Setup.batch_size := 8;
     Setup.seq_len := 2048;
     Setup.optimizer_name := "SGD"%string;
     Setup.optimizer_lr := dyadic 1 (-10);
     Setup.compile := false;
     Setup.checkpoint_folder := "ckpt"%string;
     Setup.checkpoint_interval_type := "steps"%string;
     Setup.checkpoint_interval := 5 |}.

End SampleSetup.


(** * Facts *)

(** ** Snapshot and restore *)

Lemma bind_Ok {A B : Type} (r : result A) (k : A -> result B) (b : B) :
  bind r k = Ok b -> exists a, r = Ok a /\ k a = Ok b.
Proof.
  destruct r as [a | e]; simpl; intros E; [eauto | discriminate].
Qed.

(** What [state_dict] returns, when it returns. *)
Lemma state_dict_Ok tensor_int32 tensor_float32 (s : TrainState) sd :
  state_dict tensor_int32 tensor_float32 s = Ok sd ->
  exists n c,
    tensor_int32 (step s) = Ok n /\
    tensor_float32 (current_loss s) = Ok c /\
    sd = {| sd_step := Tensor0 n;
            sd_current_loss := Tensor0 c;
            sd_losses := Tensor0 c |}.
Proof.
  unfold state_dict. intros E.
  apply bind_Ok in E as (n & En & E).
  apply bind_Ok in E as (c & Ec & E).
  rewrite Ec in E. simpl in E.
  exists n, c. repeat split; congruence.
Qed.

(** C1: whatever conversions [torch.tensor] applies, restoring from the
    snapshot of a state succeeds and gives the step and the current loss the
    snapshot's tensors hold, but [losses] comes back as the bare float of
    [current_loss]: never as a list, so never as the [losses] list the state
    had before the snapshot. *)
Theorem load_state_dict_state_dict_losses :
  forall tensor_int32 tensor_float32 (s self : TrainState) (sd : StateDict),
    state_dict tensor_int32 tensor_float32 s = Ok sd ->
    exists n c,
      tensor_int32 (step s) = Ok n /\
      tensor_float32 (current_loss s) = Ok c /\
      load_state_dict self sd
      = Ok {| step := n; current_loss := c; losses := PyFloat c |} /\
      (forall xs, losses s = PyList xs -> PyFloat c <> losses s).
Proof.
  intros ti tf s self sd E.
  apply state_dict_Ok in E as (n & c & En & Ec & ->).
  exists n, c. repeat split; auto.
  intros xs Hxs. rewrite Hxs. discriminate.
Qed.

(** The round trip at the state reached after one step, under the checked
    conversions: step and current loss come back, the list of losses does
    not. *)
Example load_state_dict_state_dict_after_one_step :
  (sd <- state_dict checked_int32 round_float32 Sample.after_one_step ;;
   load_state_dict TrainState_default sd)
  = Ok {| step := 1; current_loss := Sample.half;
          losses := PyFloat Sample.half |}.
Proof. reflexivity. Qed.

(** The same at a fresh state: the empty list comes back as [-1.0]. *)
Example load_state_dict_state_dict_default :
  (sd <- state_dict checked_int32 round_float32 TrainState_default ;;
   load_state_dict TrainState_default sd)
  = Ok {| step := 0; current_loss := float_of_int (-1);
          losses := PyFloat (float_of_int (-1)) |}.
Proof. reflexivity. Qed.

(** A current loss that is not a binary32 value comes back rounded. *)
Example load_state_dict_state_dict_tenth :
  (sd <- state_dict checked_int32 round_float32
           {| step := 1; current_loss := Sample.tenth;
              losses := PyList [Sample.tenth] |} ;;
   load_state_dict TrainState_default sd)
  = Ok {| step := 1; current_loss := dyadic 13421773 (-27);
          losses := PyFloat (dyadic 13421773 (-27)) |}.
Proof. reflexivity. Qed.

(** C2 (as amended): [load_state_dict] compares nothing.  When the record's
    step and current-loss tensors hold one element each, it returns
    normally, and every field of the state is the record's, whatever the
    state held before and whatever the relation between the record's step
    and its losses. *)
Theorem load_state_dict_no_check :
  forall (self : TrainState) (sd : StateDict) (n : Z) (c : float),
    item (sd_step sd) = Ok n ->
    item (sd_current_loss sd) = Ok c ->
    load_state_dict self sd
    = Ok {| step := n; current_loss := c; losses := tolist (sd_losses sd) |}.
Proof.
  intros self sd n c En Ec. unfold load_state_dict.
  rewrite En. simpl. rewrite Ec. reflexivity.
Qed.

(** [load_state_dict] raises only what [item] raises. *)
Lemma load_state_dict_Raise (self : TrainState) (sd : StateDict) (e : exn) :
  load_state_dict self sd = Raise e ->
  item (sd_step sd) = Raise e \/ item (sd_current_loss sd) = Raise e.
Proof.
  unfold load_state_dict.
  destruct (item (sd_step sd)) as [n | e1]; simpl;
    [| intros [= ->]; left; reflexivity].
  destruct (item (sd_current_loss sd)) as [c | e2]; simpl;
    [discriminate | intros [= ->]; right; reflexivity].
Qed.

(** C2 (counterexample): a record with step 3 and a single loss is restored
    as it is; no error is raised. *)
Lemma load_state_dict_accepts_mismatch :
  item (sd_step Sample.mismatched) = Ok 3 /\
  len (tolist (sd_losses Sample.mismatched)) = Some 1 /\
  3 <> 1 /\
  load_state_dict TrainState_default Sample.mismatched
  = Ok {| step := 3; current_loss := Sample.half;
          losses := PyList [Sample.half] |} /\
  (forall e,
      load_state_dict TrainState_default Sample.mismatched <> Raise e).
Proof. repeat split; discriminate. Qed.

(** ** The loop *)

Section TrainLoopFacts.

Context {Batch Loader : Type} {loader_iterable : Iterable Loader Batch}.
Variable env : Env Batch Loader.

Implicit Types (st : LoopState Batch) (b : Batch) (xs : list float).

(** *** Reading the trace of an iteration *)

Lemma metric_steps_app (tr1 tr2 : list (event Batch)) :
  metric_steps (tr1 ++ tr2) = metric_steps tr1 ++ metric_steps tr2.
Proof.
  induction tr1 as [| e tr1 IH]; [reflexivity |].
  destruct e; cbn; rewrite ?IH; reflexivity.
Qed.

Lemma fetched_app (tr1 tr2 : list (event Batch)) :
  fetched (tr1 ++ tr2) = fetched tr1 ++ fetched tr2.
Proof.
  induction tr1 as [| e tr1 IH]; [reflexivity |].
  destruct e; cbn; rewrite ?IH; reflexivity.
Qed.

Lemma saves_app (tr1 tr2 : list (event Batch)) :
  saves (tr1 ++ tr2) = saves tr1 ++ saves tr2.
Proof.
  induction tr1 as [| e tr1 IH]; [reflexivity |].
  destruct e; cbn; rewrite ?IH; reflexivity.
Qed.

Lemma count_app (p : event Batch -> bool) (tr1 tr2 : list (event Batch)) :
  count p (tr1 ++ tr2) = (count p tr1 + count p tr2)%nat.
Proof.
  unfold count. rewrite filter_app. apply length_app.
Qed.

Ltac case_events :=
  unfold iteration_events, compute_events, optimizer_events, report_events,
    save_event;
  match goal with
  | |- context [skipped ?e ?st ?b] => destruct (skipped e st b)
  end;
  match goal with
  | |- context [profiler_active ?e] => destruct (profiler_active e)
  end;
  match goal with
  | |- context [logs_at ?e ?s] => destruct (logs_at e s)
  end.

Lemma metric_steps_iteration st b xs :
  metric_steps (iteration_events env st b xs)
  = if logs_at env (step (train_state st) + 1)
    then [step (train_state st) + 1] else [].
Proof. case_events; reflexivity. Qed.

Lemma fetched_iteration st b xs :
  fetched (iteration_events env st b xs) = [b].
Proof. case_events; reflexivity. Qed.

Lemma saves_iteration st b xs :
  saves (iteration_events env st b xs)
  = [(step (train_state st) + 1,
      step (train_state st) + 1 =? training_steps (job_config env))].
Proof. case_events; reflexivity. Qed.

Lemma scheduler_steps_iteration st b xs :
  count is_scheduler_step (iteration_events env st b xs) = 1%nat.
Proof. case_events; reflexivity. Qed.

(** An iteration asks for a batch first and for a save last, and for
    neither in between. *)
Lemma iteration_events_shape st b xs :
  exists mid,
    iteration_events env st b xs
    = NextBatch b :: mid ++ [save_event env st b xs] /\
    count is_fetch_or_save mid = 0%nat.
Proof.
  exists (tl (compute_events env st b) ++ optimizer_events env st b
          ++ report_events env st b).
  unfold iteration_events, compute_events. cbn [tl app]. split.
  - rewrite <- !app_assoc. reflexivity.
  - unfold optimizer_events, report_events.
    destruct (skipped env st b); destruct (profiler_active env);
      destruct (logs_at env _); reflexivity.
Qed.

(** When the scaler finds a non-finite gradient the optimizer does not
    step. *)
Lemma optimizer_skipped_iteration st b xs :
  skipped env st b = true ->
  In OptimizerSkipped (iteration_events env st b xs) /\
  count is_optimizer_step (iteration_events env st b xs) = 0%nat.
Proof.
  intros Hs.
  unfold iteration_events, compute_events, optimizer_events, report_events,
    save_event.
  rewrite Hs.
  destruct (profiler_active env); destruct (logs_at env _);
    (split; [cbn; tauto | reflexivity]).
Qed.

(** *** [n] iterations in a row *)

Lemma steps_after_S (s0 : Z) (n : nat) :
  steps_after s0 (S n) = (s0 + 1) :: steps_after (s0 + 1) n.
Proof.
  unfold steps_after. rewrite <- cons_seq. cbn [map].
  rewrite <- seq_shift. rewrite map_map.
  f_equal. apply map_ext. intros i. lia.
Qed.

Lemma steps_after_last (s0 : Z) (n : nat) :
  steps_after s0 (S n) = steps_after s0 n ++ [s0 + Z.of_nat (S n)].
Proof.
  unfold steps_after. rewrite seq_S, map_app. reflexivity.
Qed.

Lemma after_iterations_step n : forall st b xs,
  step (train_state (after_iterations env n st b xs))
  = step (train_state st) + Z.of_nat n.
Proof.
  induction n as [| n IH]; intros st b xs; cbn [after_iterations].
  - lia.
  - rewrite IH. cbn. lia.
Qed.

Lemma after_iterations_losses n : forall st b xs,
  losses (train_state st) = PyList xs ->
  exists ys,
    losses (train_state (after_iterations env n st b xs)) = PyList (xs ++ ys)
    /\ length ys = n.
Proof.
  induction n as [| n IH]; intros st b xs Hxs; cbn [after_iterations].
  - exists []. rewrite app_nil_r. auto.
  - destruct (IH (after_iteration env st b xs) b (xs ++ [loss_of env st b]))
      as (ys & Hys & Hlen); [reflexivity |].
    exists (loss_of env st b :: ys). rewrite Hys, <- app_assoc.
    cbn. auto.
Qed.

Lemma after_iterations_metric_steps n : forall st b xs,
  metric_steps (trace (after_iterations env n st b xs))
  = metric_steps (trace st)
    ++ filter (logs_at env) (steps_after (step (train_state st)) n).
Proof.
  induction n as [| n IH]; intros st b xs; cbn [after_iterations].
  - cbn. rewrite app_nil_r. reflexivity.
  - rewrite IH, steps_after_S. cbn [after_iteration trace train_state
      advanced step filter].
    rewrite metric_steps_app, metric_steps_iteration, <- app_assoc.
    destruct (logs_at env _); reflexivity.
Qed.

Lemma after_iterations_fetched n : forall st b xs,
  fetched (trace (after_iterations env n st b xs))
  = fetched (trace st) ++ repeat b n.
Proof.
  induction n as [| n IH]; intros st b xs; cbn [after_iterations].
  - cbn. rewrite app_nil_r. reflexivity.
  - rewrite IH. cbn [after_iteration trace repeat].
    rewrite fetched_app, fetched_iteration, <- app_assoc. reflexivity.
Qed.

Lemma after_iterations_saves n : forall st b xs,
  saves (trace (after_iterations env n st b xs))
  = saves (trace st)
    ++ map (fun s => (s, s =? training_steps (job_config env)))
           (steps_after (step (train_state st)) n).
Proof.
  induction n as [| n IH]; intros st b xs; cbn [after_iterations].
  - cbn. rewrite app_nil_r. reflexivity.
  - rewrite IH, steps_after_S. cbn [after_iteration trace train_state
      advanced step map].
    rewrite saves_app, saves_iteration, <- app_assoc. reflexivity.
Qed.

Lemma after_iterations_scheduler_steps n : forall st b xs,
  count is_scheduler_step (trace (after_iterations env n st b xs))
  = (count is_scheduler_step (trace st) + n)%nat.
Proof.
  induction n as [| n IH]; intros st b xs; cbn [after_iterations].
  - lia.
  - rewrite IH. cbn [after_iteration trace].
    rewrite count_app, scheduler_steps_iteration. lia.
Qed.

Section Running.

(** The loader is not empty; its first batch is [b0]. *)
Variable b0 : Batch.
Variable rest : iterator.
Hypothesis first_batch : next (iter (data_loader env)) = Some (b0, rest).

(** The logging frequency is not zero. *)
Hypothesis log_freq_nonzero : metrics_log_freq (job_config env) <> 0.

Ltac unfold_stmts :=
  cbv beta iota zeta delta
    [bind read append inc_step count_words zero_grad forward backward
     unscale clip_grad_norm scaler_step scaler_update profiler_step
     set_current_loss append_losses append_window log_metrics rank0_log
     scheduler_step checkpoint_save emit set_train_state set_window
     set_batch set_loss train_state losses_since_last_log
     nwords_since_last_log batch loss trace step current_loss losses].

(** One iteration, from a state whose [losses] is a list. *)
Lemma iteration_Ok st xs :
  losses (train_state st) = PyList xs ->
  iteration env st = Ok (after_iteration env st b0 xs).
Proof.
  intros Hxs.
  apply Z.eqb_neq in log_freq_nonzero as Hf.
  destruct st as [[s c l] w n bt ls tr]. cbn in Hxs. subst l.
  unfold iteration, body, run, get_batch. rewrite first_batch.
  unfold after_iteration, iteration_events, advanced, save_event,
    report_events, optimizer_events, skipped, compute_events, loss_of,
    logs_at.
  unfold_stmts.
  repeat rewrite <- app_assoc. cbn [app].
  destruct (found_inf env _); destruct (profiler_active env);
    rewrite Hf;
    (destruct (_ mod _ =? 0);
     repeat rewrite <- app_assoc; cbn [app]; reflexivity).
Qed.

(** One iteration, from a state whose [losses] is a bare float: this is
    where a run resumed from a snapshot stops. *)
Lemma iteration_Raise st x :
  losses (train_state st) = PyFloat x ->
  iteration env st = Raise AttributeError.
Proof.
  intros Hx.
  destruct st as [[s c l] w n bt ls tr]. cbn in Hx. subst l.
  unfold iteration, body, run, get_batch. rewrite first_batch.
  unfold_stmts.
  destruct (found_inf env _); destruct (profiler_active env); reflexivity.
Qed.

Lemma iterations_Ok n : forall st xs,
  losses (train_state st) = PyList xs ->
  iterations env n st = Ok (after_iterations env n st b0 xs).
Proof.
  induction n as [| n IH]; intros st xs Hxs; cbn [iterations after_iterations].
  - reflexivity.
  - rewrite (iteration_Ok st xs Hxs). cbn [bind].
    apply IH. reflexivity.
Qed.

(** *** The [while] *)

Lemma guard_sentinel st :
  training_steps (job_config env) = -1 -> guard env st = true.
Proof.
  intros HN. unfold guard. rewrite HN. apply orb_true_r.
Qed.

Lemma guard_below st :
  step (train_state st) < training_steps (job_config env) ->
  guard env st = true.
Proof.
  intros Hlt. unfold guard.
  apply Z.ltb_lt in Hlt as ->. reflexivity.
Qed.

Lemma guard_reached st :
  step (train_state st) = training_steps (job_config env) ->
  training_steps (job_config env) <> -1 ->
  guard env st = false.
Proof.
  intros Heq HN. unfold guard.
  rewrite Heq, Z.ltb_irrefl.
  apply Z.eqb_neq in HN as ->. reflexivity.
Qed.

(** With [k] steps to go and fuel for them, the loop makes [k] iterations
    and leaves the [while]. *)
Lemma train_loop_Finished k : forall fuel st xs,
  losses (train_state st) = PyList xs ->
  step (train_state st) + Z.of_nat k = training_steps (job_config env) ->
  training_steps (job_config env) <> -1 ->
  (k <= fuel)%nat ->
  train_loop env fuel st = Ok (Finished (after_iterations env k st b0 xs)).
Proof.
  induction k as [| k IH]; intros fuel st xs Hxs Hk HN Hfuel.
  - assert (guard env st = false) as Hg by (apply guard_reached; lia).
    destruct fuel; cbn [train_loop after_iterations]; rewrite Hg;
      reflexivity.
  - destruct fuel as [| fuel]; [lia |].
    cbn [train_loop after_iterations].
    rewrite guard_below by lia.
    rewrite (iteration_Ok st xs Hxs). cbn [bind].
    apply IH; [reflexivity | cbn; lia | assumption | lia].
Qed.

(** With the sentinel the loop uses up any fuel. *)
Lemma train_loop_Running fuel : forall st xs,
  training_steps (job_config env) = -1 ->
  losses (train_state st) = PyList xs ->
  train_loop env fuel st = Ok (Running (after_iterations env fuel st b0 xs)).
Proof.
  induction fuel as [| fuel IH]; intros st xs HN Hxs;
    cbn [train_loop after_iterations]; rewrite guard_sentinel by assumption.
  - reflexivity.
  - rewrite (iteration_Ok st xs Hxs). cbn [bind].
    apply IH; [assumption | reflexivity].
Qed.

(** *** Inside an iteration *)

Ltac at_point :=
  unfold point; cbn [firstn body]; unfold run, get_batch;
  rewrite ?first_batch; unfold_stmts.

Ltac split_ifs :=
  repeat match goal with
         | |- context [if ?c then _ else _] => destruct c
         end.

(** C3 (as amended): the step is incremented by the first statement of the
    body, before any collaborator is called; from there until the loss has
    been appended, [step] is one more than the length of [losses]; the two
    are equal on entering the body and from the append on. *)
Theorem step_ahead_of_losses_inside_iteration :
  forall st xs,
    losses (train_state st) = PyList xs ->
    step (train_state st) = Z.of_nat (length xs) ->
    (exists st1,
        point env 1 st = Ok st1 /\
        step (train_state st1) = step (train_state st) + 1 /\
        losses (train_state st1) = PyList xs /\
        trace st1 = trace st) /\
    (forall k, exists st_k,
        point env k st = Ok st_k /\
        len (losses (train_state st_k))
        = Some (step (train_state st_k)
                - (if (1 <=? k)%nat && (k <=? 12)%nat then 1 else 0))).
Proof.
  intros st xs Hxs Hstep.
  apply Z.eqb_neq in log_freq_nonzero as Hf.
  destruct st as [[s c l] w n bt ls tr]. cbn in Hxs, Hstep. subst l s.
  split.
  - eexists. split; [at_point; reflexivity |]. cbn. auto.
  - intros k.
    do 18 (destruct k as [| k];
           [ cbn [Nat.leb andb]; at_point; rewrite ?Hf; split_ifs;
             (eexists; split; [reflexivity |]);
             cbn; rewrite ?length_app; cbn [length]; f_equal; lia |]).
    cbn [Nat.leb andb]. unfold point. cbn [firstn body].
    rewrite firstn_nil. unfold run, get_batch. rewrite first_batch.
    unfold_stmts. rewrite Hf. split_ifs;
      (eexists; split; [reflexivity |]);
      cbn; rewrite length_app; cbn [length]; f_equal; lia.
Qed.

(** C10 (as amended): [TrainState()] has step 0, no losses and the float
    -1 as current loss.  A run that finds no checkpoint enters the loop in
    that state.  During the first iteration, until the first loss is
    recorded, the current loss stays -1, the list of losses stays empty and
    no collaborator has been handed the step or the loss, but [step] reads
    1 from the first statement of the body on. *)
Theorem fresh_train_state :
  checkpoint_load env TrainState_default = Ok TrainState_default ->
  (step TrainState_default = 0 /\
   losses TrainState_default = PyList [] /\
   current_loss TrainState_default = SFopp (SFone 53 1024) /\
   valid_binary 53 1024 (current_loss TrainState_default) = true) /\
  (exists o,
      main env 0 = Ok o /\
      train_state (outcome_state o) = TrainState_default) /\
  (forall k, (k <= 11)%nat ->
     exists st_k,
       point env k (loop_entry TrainState_default) = Ok st_k /\
       step (train_state st_k) = (if (k =? 0)%nat then 0 else 1) /\
       current_loss (train_state st_k) = current_loss TrainState_default /\
       losses (train_state st_k) = PyList [] /\
       count shows_train_state (trace st_k) = 0%nat).
Proof.
  intros Hload. split; [| split].
  - repeat split.
  - unfold main. rewrite Hload. cbn [bind train_loop].
    destruct (guard env _); eexists; split; reflexivity.
  - intros k Hk.
    do 12 (destruct k as [| k];
           [ cbn [Nat.eqb]; at_point; split_ifs;
             (eexists; split; [reflexivity | repeat split]) |]).
    lia.
Qed.

(** C4: every iteration adds one to [step] and one loss to [losses]; after
    any number of iterations from a fresh [TrainState], [step] is that
    number and so is the length of [losses]. *)
Theorem step_and_losses_advance_together :
  (forall st xs,
      losses (train_state st) = PyList xs ->
      exists st',
        iteration env st = Ok st' /\
        step (train_state st') = step (train_state st) + 1 /\
        losses (train_state st') = PyList (xs ++ [current_loss (train_state st')])) /\
  (forall n, exists st',
      iterations env n (loop_entry TrainState_default) = Ok st' /\
      step (train_state st') = Z.of_nat n /\
      len (losses (train_state st')) = Some (step (train_state st'))).
Proof.
  split.
  - intros st xs Hxs. eexists. split; [apply (iteration_Ok st xs Hxs) |].
    split; reflexivity.
  - intros n. eexists. split; [apply (iterations_Ok n _ []); reflexivity |].
    rewrite after_iterations_step.
    destruct (after_iterations_losses n (loop_entry TrainState_default) b0 [])
      as (ys & -> & Hlen); [reflexivity |].
    cbn. split; [reflexivity |]. rewrite Hlen. reflexivity.
Qed.

(** C6: with [n > 0] configured steps and fuel for them, the loop started
    from a fresh [TrainState] leaves the [while] with [step = n] and [n]
    losses; with the sentinel [-1] the guard holds in every state and the
    loop is still running, after as many iterations as it was given fuel
    for. *)
Theorem train_loop_stops_at_training_steps :
  (forall n fuel,
      (0 < n)%nat ->
      training_steps (job_config env) = Z.of_nat n ->
      (n <= fuel)%nat ->
      exists st',
        train_loop env fuel (loop_entry TrainState_default)
        = Ok (Finished st') /\
        step (train_state st') = Z.of_nat n /\
        len (losses (train_state st')) = Some (Z.of_nat n)) /\
  (training_steps (job_config env) = -1 ->
   (forall st, guard env st = true) /\
   (forall fuel, exists st',
       train_loop env fuel (loop_entry TrainState_default)
       = Ok (Running st') /\
       step (train_state st') = Z.of_nat fuel)).
Proof.
  split.
  - intros n fuel Hn HN Hfuel. eexists. split.
    + apply (train_loop_Finished n fuel _ []);
        [reflexivity | cbn; lia | lia | assumption].
    + rewrite after_iterations_step.
      destruct (after_iterations_losses n (loop_entry TrainState_default) b0 [])
        as (ys & -> & Hlen); [reflexivity |].
      cbn. rewrite Hlen. auto.
  - intros HN. split.
    + intros st. apply guard_sentinel, HN.
    + intros fuel. eexists. split.
      * apply (train_loop_Running fuel _ []); [assumption | reflexivity].
      * rewrite after_iterations_step. reflexivity.
Qed.

(** C7: an iteration asks for a batch first and for a save last, and for
    neither in between; the save is asked for the step just completed, with
    [force] set exactly when that step is the configured number of steps,
    and at that time the [train_state] object already holds the step, the
    loss and the extended list of losses.  Over a run, one save is asked
    per step, in order; in a run of the configured number of steps the last
    save, and no other, is forced. *)
Theorem checkpoint_save_closes_iteration :
  (forall st xs,
      losses (train_state st) = PyList xs ->
      exists st' mid,
        iteration env st = Ok st' /\
        trace st'
        = trace st ++ NextBatch b0 :: mid
          ++ [CheckpointSave
                (step (train_state st'))
                (step (train_state st') =? training_steps (job_config env))
                (train_state st')] /\
        count is_fetch_or_save mid = 0%nat /\
        step (train_state st') = step (train_state st) + 1 /\
        losses (train_state st')
        = PyList (xs ++ [current_loss (train_state st')])) /\
  (forall n, exists st',
      iterations env n (loop_entry TrainState_default) = Ok st' /\
      saves (trace st')
      = map (fun s => (s, s =? training_steps (job_config env)))
            (steps_after 0 n)) /\
  (forall n,
      (0 < n)%nat ->
      training_steps (job_config env) = Z.of_nat n ->
      exists st',
        iterations env n (loop_entry TrainState_default) = Ok st' /\
        last (saves (trace st')) (0, false) = (Z.of_nat n, true) /\
        (forall s force,
            In (s, force) (saves (trace st')) ->
            force = true <-> s = Z.of_nat n)).
Proof.
  assert (forall n, exists st',
             iterations env n (loop_entry TrainState_default) = Ok st' /\
             saves (trace st')
             = map (fun s => (s, s =? training_steps (job_config env)))
                   (steps_after 0 n)) as Hrun.
  { intros n. eexists. split; [apply (iterations_Ok n _ []); reflexivity |].
    rewrite after_iterations_saves. reflexivity. }
  split; [| split].
  - intros st xs Hxs.
    destruct (iteration_events_shape st b0 xs) as (mid & Hmid & Hcount).
    exists (after_iteration env st b0 xs), mid.
    split; [apply (iteration_Ok st xs Hxs) |].
    cbn [after_iteration trace train_state]. rewrite Hmid.
    repeat split; assumption.
  - exact Hrun.
  - intros n Hn HN. destruct (Hrun n) as (st' & Hst' & Hsaves).
    exists st'. split; [assumption |]. rewrite Hsaves, HN. split.
    + destruct n as [| n]; [lia |].
      rewrite steps_after_last, map_app. cbn [map].
      rewrite last_last. f_equal. apply Z.eqb_refl.
    + intros s force Hin.
      apply in_map_iff in Hin as (s' & [= <- <-] & _).
      apply Z.eqb_eq.
Qed.

(** C8: an iteration calls [scheduler.step()] exactly once and adds one to
    [step], whether or not the scaler found a non-finite gradient; when it
    did, the optimizer did not step, and the iteration completes all the
    same.  Over a run, the scheduler has stepped as many times as there
    were iterations. *)
Theorem scheduler_steps_every_iteration :
  (forall st xs,
      losses (train_state st) = PyList xs ->
      exists st' evs,
        iteration env st = Ok st' /\
        trace st' = trace st ++ evs /\
        count is_scheduler_step evs = 1%nat /\
        step (train_state st') = step (train_state st) + 1 /\
        (skipped env st b0 = true ->
         In OptimizerSkipped evs /\ count is_optimizer_step evs = 0%nat)) /\
  (forall n, exists st',
      iterations env n (loop_entry TrainState_default) = Ok st' /\
      count is_scheduler_step (trace st') = n /\
      step (train_state st') = Z.of_nat n).
Proof.
  split.
  - intros st xs Hxs.
    exists (after_iteration env st b0 xs), (iteration_events env st b0 xs).
    split; [apply (iteration_Ok st xs Hxs) |].
    split; [reflexivity |].
    split; [apply scheduler_steps_iteration |].
    split; [reflexivity |].
    apply optimizer_skipped_iteration.
  - intros n. eexists. split; [apply (iterations_Ok n _ []); reflexivity |].
    rewrite after_iterations_scheduler_steps, after_iterations_step.
    split; reflexivity.
Qed.

(** C9: in whatever state the loop is, the batch fetched is the first one
    of a new iterator over the loader, and the iterator is not kept; over a
    run, every step is given that same batch. *)
Theorem get_batch_restarts_loader :
  (forall st, exists st',
      get_batch env st = Ok st' /\
      batch st' = Some b0 /\
      trace st' = trace st ++ [NextBatch b0]) /\
  (forall n, exists st',
      iterations env n (loop_entry TrainState_default) = Ok st' /\
      fetched (trace st') = repeat b0 n).
Proof.
  split.
  - intros st. unfold get_batch. rewrite first_batch.
    eexists. split; [reflexivity |]. split; reflexivity.
  - intros n. eexists. split; [apply (iterations_Ok n _ []); reflexivity |].
    rewrite after_iterations_fetched. reflexivity.
Qed.

End Running.



(** C5: with a positive logging frequency [f], an iteration emits a metric
    record, tagged with its step [s], exactly when [(s - 1) mod f = 0], that
    is when [s] is one of [1, 1 + f, 1 + 2 f, ...]; when it does, the window
    of losses and the word count are reset, and when it does not they keep
    growing.  Over a run from a fresh [TrainState] the records emitted are
    those of the steps [s] with [(s - 1) mod f = 0], in order; with [f = 5]
    and ten steps, those of steps 1 and 6. *)
Theorem metric_log_cadence :
  forall (b0 : Batch) (rest : iterator),
    next (iter (data_loader env)) = Some (b0, rest) ->
    0 < metrics_log_freq (job_config env) ->
    (forall s, 1 <= s ->
       logs_at env s = true
       <-> exists j, 0 <= j /\ s = 1 + j * metrics_log_freq (job_config env)) /\
    (forall st xs,
       losses (train_state st) = PyList xs ->
       exists st',
         iteration env st = Ok st' /\
         if logs_at env (step (train_state st'))
         then
           metric_steps (trace st')
           = metric_steps (trace st) ++ [step (train_state st')] /\
           losses_since_last_log st' = [] /\
           nwords_since_last_log st' = 0
         else
           metric_steps (trace st') = metric_steps (trace st) /\
           losses_since_last_log st'
           = losses_since_last_log st ++ [current_loss (train_state st')] /\
           nwords_since_last_log st'
           = nwords_since_last_log st + numel env b0) /\
    (forall n, exists st',
       iterations env n (loop_entry TrainState_default) = Ok st' /\
       metric_steps (trace st')
       = filter (logs_at env) (steps_after 0 n)) /\
    (metrics_log_freq (job_config env) = 5 ->
     exists st',
       iterations env 10 (loop_entry TrainState_default) = Ok st' /\
       metric_steps (trace st') = [1; 6]).
Proof.
  intros b0 rest Hfirst Hpos.
  assert (metrics_log_freq (job_config env) <> 0) as Hnz by lia.
  assert (forall n, exists st',
             iterations env n (loop_entry TrainState_default) = Ok st' /\
             metric_steps (trace st')
             = filter (logs_at env) (steps_after 0 n)) as Hrun.
  { intros n. eexists. split.
    - apply (iterations_Ok b0 rest Hfirst Hnz n _ []). reflexivity.
    - rewrite after_iterations_metric_steps. reflexivity. }
  split; [| split; [| split]].
  - intros s Hs. unfold logs_at. rewrite Z.eqb_eq. split.
    + intros Hmod.
      exists ((s - 1) / metrics_log_freq (job_config env)).
      pose proof (Z.div_mod (s - 1) _ Hnz) as Hdm.
      rewrite Hmod in Hdm.
      split; [apply Z.div_pos; lia | lia].
    + intros (j & Hj & ->).
      replace (1 + j * metrics_log_freq (job_config env) - 1)
        with (j * metrics_log_freq (job_config env)) by lia.
      apply Z_mod_mult.
  - intros st xs Hxs.
    exists (after_iteration env st b0 xs).
    split; [apply (iteration_Ok b0 rest Hfirst Hnz st xs Hxs) |].
    cbn [after_iteration train_state advanced step losses_since_last_log
         nwords_since_last_log trace current_loss].
    rewrite metric_steps_app, metric_steps_iteration.
    destruct (logs_at env _); rewrite ?app_nil_r; repeat split.
  - exact Hrun.
  - intros H5. destruct (Hrun 10%nat) as (st' & Hst' & Hsteps).
    exists st'. split; [assumption |].
    rewrite Hsteps. unfold logs_at. rewrite H5. reflexivity.
Qed.

End TrainLoopFacts.


(** * The facts at the sample run *)

(** A run resumed from the snapshot taken after one step stops in its first
    iteration, at [losses.append]. *)
Example iteration_after_restore :
  (sd <- state_dict checked_int32 round_float32 Sample.after_one_step ;;
   ts <- load_state_dict TrainState_default sd ;;
   iteration Sample.env (loop_entry ts))
  = Raise AttributeError.
Proof. reflexivity. Qed.

(** C1 (witness): the snapshot of the state after one step, restored. *)
Lemma load_state_dict_state_dict_losses_witness :
  exists n c,
    checked_int32 (step Sample.after_one_step) = Ok n /\
    round_float32 (current_loss Sample.after_one_step) = Ok c /\
    load_state_dict TrainState_default
      {| sd_step := Tensor0 1;
         sd_current_loss := Tensor0 Sample.half;
         sd_losses := Tensor0 Sample.half |}
    = Ok {| step := n; current_loss := c; losses := PyFloat c |} /\
    (forall xs, losses Sample.after_one_step = PyList xs ->
                PyFloat c <> losses Sample.after_one_step).
Proof.
  apply (load_state_dict_state_dict_losses checked_int32 round_float32
           Sample.after_one_step TrainState_default).
  reflexivity.
Defined.

(** C2 (witness): the record with step 3 and one loss. *)
Lemma load_state_dict_no_check_witness :
  load_state_dict TrainState_default Sample.mismatched
  = Ok {| step := 3; current_loss := Sample.half;
          losses := tolist (sd_losses Sample.mismatched) |}.
Proof.
  apply (load_state_dict_no_check TrainState_default Sample.mismatched
           3 Sample.half); reflexivity.
Defined.

(** C3 (counterexample): in the first iteration of the sample run, after
    the first statement and before any collaborator has been called, [step]
    is 1 and [losses] is empty. *)
Lemma step_incremented_before_compute :
  exists st1,
    point Sample.env 1 (loop_entry TrainState_default) = Ok st1 /\
    trace st1 = [] /\
    step (train_state st1) = 1 /\
    len (losses (train_state st1)) = Some 0.
Proof.
  eexists. split; [reflexivity |]. repeat split.
Qed.

(** C3 (witness): the first iteration of the sample run. *)
Lemma step_ahead_of_losses_inside_iteration_witness :
  (exists st1,
      point Sample.env 1 (loop_entry TrainState_default) = Ok st1 /\
      step (train_state st1) = 0 + 1 /\
      losses (train_state st1) = PyList [] /\
      trace st1 = []) /\
  (forall k, exists st_k,
      point Sample.env k (loop_entry TrainState_default) = Ok st_k /\
      len (losses (train_state st_k))
      = Some (step (train_state st_k)
              - (if (1 <=? k)%nat && (k <=? 12)%nat then 1 else 0))).
Proof.
  apply (step_ahead_of_losses_inside_iteration
           (loader_iterable := list_Iterable Sample.Batch)
           Sample.env Sample.first Sample.others);
    [reflexivity | cbn; lia | reflexivity | reflexivity].
Defined.

(** C4 (witness): the first iteration and ten iterations of the sample
    run. *)
Lemma step_and_losses_advance_together_witness :
  (exists st',
      iteration Sample.env (loop_entry TrainState_default) = Ok st' /\
      step (train_state st') = 0 + 1 /\
      losses (train_state st')
      = PyList ([] ++ [current_loss (train_state st')])) /\
  (exists st',
      iterations Sample.env 10 (loop_entry TrainState_default) = Ok st' /\
      step (train_state st') = 10 /\
      len (losses (train_state st')) = Some (step (train_state st'))).
Proof.
  pose proof (step_and_losses_advance_together
                (loader_iterable := list_Iterable Sample.Batch)
                Sample.env Sample.first Sample.others
                eq_refl ltac:(cbn; lia)) as [Hone Hrun].
  split.
  - exact (Hone (loop_entry TrainState_default) [] eq_refl).
  - exact (Hrun 10%nat).
Defined.

(** C5 (witness): the sample run logs at steps 1 and 6; step 6 is
    [1 + 1 * 5]; its first iteration logs and resets the window. *)
Lemma metric_log_cadence_witness :
  (logs_at Sample.env 6 = true <-> exists j, 0 <= j /\ 6 = 1 + j * 5) /\
  (exists st',
      iteration Sample.env (loop_entry TrainState_default) = Ok st' /\
      metric_steps (trace st') = [1] /\
      losses_since_last_log st' = [] /\
      nwords_since_last_log st' = 0) /\
  (exists st',
      iterations Sample.env 10 (loop_entry TrainState_default) = Ok st' /\
      metric_steps (trace st') = [1; 6]).
Proof.
  pose proof (metric_log_cadence
                (loader_iterable := list_Iterable Sample.Batch)
                Sample.env Sample.first Sample.others
                eq_refl ltac:(cbn; lia)) as (Hiff & Hone & _ & Hten).
  split; [| split].
  - exact (Hiff 6 ltac:(lia)).
  - destruct (Hone (loop_entry TrainState_default) [] eq_refl)
      as (st' & Hst' & Hlog).
    exists st'. split; [exact Hst' |].
    injection Hst' as <-. exact Hlog.
  - exact (Hten eq_refl).
Defined.

(** C6 (witness): the sample run stops at step 10; without a bound it is
    still running after 25 iterations. *)
Lemma train_loop_stops_at_training_steps_witness :
  (exists st',
      train_loop Sample.env 12 (loop_entry TrainState_default)
      = Ok (Finished st') /\
      step (train_state st') = 10 /\
      len (losses (train_state st')) = Some 10) /\
  (exists st',
      train_loop Sample.env_forever 25 (loop_entry TrainState_default)
      = Ok (Running st') /\
      step (train_state st') = 25).
Proof.
  split.
  - apply (proj1 (train_loop_stops_at_training_steps
                    (loader_iterable := list_Iterable Sample.Batch)
                    Sample.env Sample.first Sample.others
                    eq_refl ltac:(cbn; lia)) 10%nat 12%nat);
      [lia | reflexivity | lia].
  - apply (proj2 (proj2 (train_loop_stops_at_training_steps
                    (loader_iterable := list_Iterable Sample.Batch)
                    Sample.env_forever Sample.first Sample.others
                    eq_refl ltac:(cbn; lia)) eq_refl) 25%nat).
Defined.

(** C7 (witness): the first iteration of the sample run, and the saves it
    asks for in ten steps. *)
Lemma checkpoint_save_closes_iteration_witness :
  (exists st' mid,
      iteration Sample.env (loop_entry TrainState_default) = Ok st' /\
      trace st'
      = [] ++ NextBatch Sample.first :: mid
        ++ [CheckpointSave (step (train_state st'))
                           (step (train_state st') =? 10)
                           (train_state st')] /\
      count is_fetch_or_save mid = 0%nat /\
      step (train_state st') = 0 + 1 /\
      losses (train_state st')
      = PyList ([] ++ [current_loss (train_state st')])) /\
  (exists st',
      iterations Sample.env 10 (loop_entry TrainState_default) = Ok st' /\
      last (saves (trace st')) (0, false) = (10, true) /\
      (forall s force,
          In (s, force) (saves (trace st')) -> force = true <-> s = 10)).
Proof.
  pose proof (checkpoint_save_closes_iteration
                (loader_iterable := list_Iterable Sample.Batch)
                Sample.env Sample.first Sample.others
                eq_refl ltac:(cbn; lia)) as (Hone & _ & Hlast).
  split.
  - exact (Hone (loop_entry TrainState_default) [] eq_refl).
  - exact (Hlast 10%nat ltac:(lia) eq_refl).
Defined.

(** C8 (witness): the second iteration of the sample run, which meets a
    non-finite gradient, and its ten iterations. *)
Lemma scheduler_steps_every_iteration_witness :
  (exists st' evs,
      iteration Sample.env Sample.after_first = Ok st' /\
      trace st' = trace Sample.after_first ++ evs /\
      count is_scheduler_step evs = 1%nat /\
      step (train_state st') = 1 + 1 /\
      In OptimizerSkipped evs /\
      count is_optimizer_step evs = 0%nat) /\
  (exists st',
      iterations Sample.env 10 (loop_entry TrainState_default) = Ok st' /\
      count is_scheduler_step (trace st') = 10%nat /\
      step (train_state st') = 10).
Proof.
  pose proof (scheduler_steps_every_iteration
                (loader_iterable := list_Iterable Sample.Batch)
                Sample.env Sample.first Sample.others
                eq_refl ltac:(cbn; lia)) as [Hone Hrun].
  split.
  - destruct (Hone Sample.after_first [Sample.half] eq_refl)
      as (st' & evs & Hst' & Htrace & Hsched & Hstep & Hskip).
    exists st', evs.
    destruct (Hskip eq_refl) as [Hin Hopt].
    repeat split; assumption.
  - exact (Hrun 10%nat).
Defined.

(** C9 (witness): the sample run is given its first batch three times in
    three steps, and never its second. *)
Lemma get_batch_restarts_loader_witness :
  (exists st',
      get_batch Sample.env Sample.after_first = Ok st' /\
      batch st' = Some Sample.first /\
      trace st' = trace Sample.after_first ++ [NextBatch Sample.first]) /\
  (exists st',
      iterations Sample.env 3 (loop_entry TrainState_default) = Ok st' /\
      fetched (trace st') = [Sample.first; Sample.first; Sample.first]).
Proof.
  pose proof (get_batch_restarts_loader
                (loader_iterable := list_Iterable Sample.Batch)
                Sample.env Sample.first Sample.others
                eq_refl ltac:(cbn; lia)) as [Hone Hrun].
  split.
  - exact (Hone Sample.after_first).
  - exact (Hrun 3%nat).
Defined.

(** C10 (counterexample): in the first iteration of the sample run, just
    before the first loss is recorded, the current loss is still -1 and the
    list of losses still empty, yet the state is not the one of a fresh
    [TrainState]: its step is 1. *)
Lemma first_step_under_way_not_fresh :
  exists st,
    point Sample.env 11 (loop_entry TrainState_default) = Ok st /\
    current_loss (train_state st) = current_loss TrainState_default /\
    losses (train_state st) = PyList [] /\
    step (train_state st) = 1 /\
    train_state st <> TrainState_default.
Proof.
  eexists. split; [reflexivity |]. repeat split. discriminate.
Qed.

(** C10 (witness): the sample run finds no checkpoint; its state on
    entering the loop, and just before the first loss is recorded. *)
Lemma fresh_train_state_witness :
  (exists o,
      main Sample.env 0 = Ok o /\
      train_state (outcome_state o) = TrainState_default) /\
  (exists st_k,
      point Sample.env 11 (loop_entry TrainState_default) = Ok st_k /\
      step (train_state st_k) = 1 /\
      current_loss (train_state st_k) = current_loss TrainState_default /\
      losses (train_state st_k) = PyList [] /\
      count shows_train_state (trace st_k) = 0%nat).
Proof.
  pose proof (fresh_train_state
                (loader_iterable := list_Iterable Sample.Batch)
                Sample.env Sample.first Sample.others
                eq_refl eq_refl) as (_ & Hentry & Hfirst).
  split.
  - exact Hentry.
  - exact (Hfirst 11%nat ltac:(lia)).
Defined.

(** * Further facts *)

(** ** Snapshot and restore *)

(** X1: [load_state_dict] replaces the state, it does not merge: what it
    returns does not depend on what the state held before. *)
Theorem load_state_dict_overwrites :
  forall (self1 self2 : TrainState) (sd : StateDict),
    load_state_dict self1 sd = load_state_dict self2 sd.
Proof.
  intros self1 self2 sd. unfold load_state_dict.
  destruct (item (sd_step sd)) as [n | e]; [| reflexivity].
  cbn [bind].
  destruct (item (sd_current_loss sd)) as [c | e]; reflexivity.
Qed.

Lemma item_numel_of {A : Type} (t : tensor A) :
  if Nat.eqb (numel_of t) 1
  then exists x, item t = Ok x
  else item t = Raise ItemError.
Proof.
  destruct t as [x | [| x [| y xs]]]; cbn; eauto.
Qed.

(** X2: [load_state_dict] returns normally exactly when the step tensor and
    the current-loss tensor hold one element each, whatever their rank, and
    raises [item()]'s error otherwise; the losses tensor can have any
    length, and it is stored as [tolist()] gives it. *)
Theorem load_state_dict_returns_iff :
  forall (self : TrainState) (sd : StateDict),
    if Nat.eqb (numel_of (sd_step sd)) 1
       && Nat.eqb (numel_of (sd_current_loss sd)) 1
    then exists n c,
        item (sd_step sd) = Ok n /\
        item (sd_current_loss sd) = Ok c /\
        load_state_dict self sd
        = Ok {| step := n; current_loss := c;
                losses := tolist (sd_losses sd) |}
    else load_state_dict self sd = Raise ItemError.
Proof.
  intros self sd. unfold load_state_dict.
  pose proof (item_numel_of (sd_step sd)) as Hs.
  pose proof (item_numel_of (sd_current_loss sd)) as Hc.
  destruct (Nat.eqb (numel_of (sd_step sd)) 1).
  - destruct Hs as [n Hn]. rewrite Hn. cbn [bind andb].
    destruct (Nat.eqb (numel_of (sd_current_loss sd)) 1).
    + destruct Hc as [c Hc]. rewrite Hc. cbn [bind]. eauto.
    + rewrite Hc. reflexivity.
  - rewrite Hs. reflexivity.
Qed.

(** X3: the snapshot does not look at [losses]: two states with the same
    step and the same current loss have the same snapshot. *)
Theorem state_dict_ignores_losses :
  forall tensor_int32 tensor_float32 (s1 s2 : TrainState),
    step s1 = step s2 ->
    current_loss s1 = current_loss s2 ->
    state_dict tensor_int32 tensor_float32 s1
    = state_dict tensor_int32 tensor_float32 s2.
Proof.
  intros ti tf s1 s2 Hstep Hloss. unfold state_dict.
  rewrite Hstep, Hloss. reflexivity.
Qed.

Lemma round_trip_fixed tensor_int32 tensor_float32 (self s : TrainState) :
  tensor_int32 (step s) = Ok (step s) ->
  tensor_float32 (current_loss s) = Ok (current_loss s) ->
  round_trip tensor_int32 tensor_float32 self s
  = Ok {| step := step s; current_loss := current_loss s;
          losses := PyFloat (current_loss s) |}.
Proof.
  intros Hn Hc. unfold round_trip, state_dict.
  rewrite Hn, Hc. reflexivity.
Qed.

(** X4: when the conversions leave the step and the current loss of a state
    as they are, snapshot and restore give back that very state exactly
    when its [losses] is the bare float of its current loss; a state whose
    [losses] is a list never comes back. *)
Theorem round_trip_exact_iff :
  forall tensor_int32 tensor_float32 (self s : TrainState),
    tensor_int32 (step s) = Ok (step s) ->
    tensor_float32 (current_loss s) = Ok (current_loss s) ->
    round_trip tensor_int32 tensor_float32 self s = Ok s
    <-> losses s = PyFloat (current_loss s).
Proof.
  intros ti tf self s Hn Hc.
  rewrite (round_trip_fixed ti tf self s Hn Hc).
  destruct s as [n c l]. cbn. split.
  - intros [= <-]. reflexivity.
  - intros ->. reflexivity.
Qed.

(** ** The loop *)

Ltac unfold_body :=
  cbv beta iota zeta delta
    [bind read append inc_step count_words zero_grad forward backward
     unscale clip_grad_norm scaler_step scaler_update profiler_step
     set_current_loss append_losses append_window log_metrics rank0_log
     scheduler_step checkpoint_save emit set_train_state set_window
     set_batch set_loss train_state losses_since_last_log
     nwords_since_last_log batch loss trace step current_loss losses].

Section IterationOutcome.

Context {Batch Loader : Type} {loader_iterable : Iterable Loader Batch}.
Variable env : Env Batch Loader.

Implicit Types (st : LoopState Batch) (b : Batch) (xs : list float).

Lemma iteration_StopIteration st :
  next (iter (data_loader env)) = None ->
  iteration env st = Raise StopIteration.
Proof.
  intros Hnext. unfold iteration, body. cbn [run].
  unfold inc_step at 1. cbn [bind].
  unfold get_batch. rewrite Hnext. reflexivity.
Qed.

Lemma iteration_ZeroDivisionError st b (r : iterator) xs :
  next (iter (data_loader env)) = Some (b, r) ->
  losses (train_state st) = PyList xs ->
  metrics_log_freq (job_config env) = 0 ->
  iteration env st = Raise ZeroDivisionError.
Proof.
  intros Hnext Hxs Hf.
  destruct st as [[s c l] w n bt ls tr]. cbn in Hxs. subst l.
  unfold iteration, body, run, get_batch. rewrite Hnext.
  unfold_body. rewrite Hf.
  destruct (found_inf env _); destruct (profiler_active env); reflexivity.
Qed.

(** What an iteration comes to, in any state. *)
Lemma iteration_cases st :
  iteration env st
  = match next (iter (data_loader env)) with
    | None => Raise StopIteration
    | Some (b, _) =>
        match losses (train_state st) with
        | PyFloat _ => Raise AttributeError
        | PyList xs =>
            if metrics_log_freq (job_config env) =? 0
            then Raise ZeroDivisionError
            else Ok (after_iteration env st b xs)
        end
    end.
Proof.
  destruct (next (iter (data_loader env))) as [[b r] |] eqn:Hnext.
  - destruct (losses (train_state st)) as [x | xs] eqn:Hl.
    + exact (iteration_Raise env b r Hnext st x Hl).
    + destruct (metrics_log_freq (job_config env) =? 0) eqn:Hf.
      * apply Z.eqb_eq in Hf.
        exact (iteration_ZeroDivisionError st b r xs Hnext Hl Hf).
      * apply Z.eqb_neq in Hf.
        exact (iteration_Ok env b r Hnext Hf st xs Hl).
  - exact (iteration_StopIteration st Hnext).
Qed.

(** X5: an iteration raises nothing but [StopIteration], [AttributeError]
    and [ZeroDivisionError], and in that order of precedence: the first
    when the loader has no batch; the second when it has one and [losses]
    is not a list; the third when moreover the logging frequency is zero.
    In every other state it returns normally. *)
Theorem iteration_raises_only :
  forall st,
    (forall e,
        iteration env st = Raise e ->
        (e = StopIteration /\ next (iter (data_loader env)) = None) \/
        (e = AttributeError /\
         next (iter (data_loader env)) <> None /\
         exists x, losses (train_state st) = PyFloat x) \/
        (e = ZeroDivisionError /\
         next (iter (data_loader env)) <> None /\
         (exists xs, losses (train_state st) = PyList xs) /\
         metrics_log_freq (job_config env) = 0)) /\
    (next (iter (data_loader env)) <> None ->
     (exists xs, losses (train_state st) = PyList xs) ->
     metrics_log_freq (job_config env) <> 0 ->
     exists st', iteration env st = Ok st').
Proof.
  intros st. rewrite iteration_cases.
  destruct (next (iter (data_loader env))) as [[b r] |].
  - destruct (losses (train_state st)) as [x | xs].
    + split.
      * intros e [= <-]. right. left.
        split; [reflexivity |]. split; [discriminate | eauto].
      * intros _ [xs Hxs]. discriminate.
    + destruct (metrics_log_freq (job_config env) =? 0) eqn:Hf.
      * apply Z.eqb_eq in Hf. split.
        -- intros e [= <-]. right. right.
           repeat split; [discriminate | eauto | assumption].
        -- intros _ _ Hnz. contradiction.
      * split; [discriminate | eauto].
  - split.
    + intros e [= <-]. left. split; reflexivity.
    + intros Hnext. contradiction.
Qed.

(** X6: when [checkpoint.load()] leaves a state to go on from and there is
    a step to make, a loader with no batch makes [main] raise
    [StopIteration], and a logging frequency of zero makes it raise
    [ZeroDivisionError], in the first iteration. *)
Theorem main_raises_in_first_iteration :
  forall (ts : TrainState) (fuel : nat),
    checkpoint_load env TrainState_default = Ok ts ->
    guard env (loop_entry ts) = true ->
    (next (iter (data_loader env)) = None ->
     main env (S fuel) = Raise StopIteration) /\
    (forall b (r : iterator) xs,
        next (iter (data_loader env)) = Some (b, r) ->
        losses ts = PyList xs ->
        metrics_log_freq (job_config env) = 0 ->
        main env (S fuel) = Raise ZeroDivisionError).
Proof.
  intros ts fuel Hload Hguard.
  unfold main. rewrite Hload. cbn [bind train_loop]. rewrite Hguard.
  split.
  - intros Hnext. rewrite (iteration_StopIteration _ Hnext). reflexivity.
  - intros b r xs Hnext Hxs Hf.
    rewrite (iteration_ZeroDivisionError (loop_entry ts) b r xs Hnext Hxs Hf).
    reflexivity.
Qed.

(** X7: a run resumed from a snapshot stops at once: whatever state the
    snapshot was taken of and whatever the conversions, when
    [checkpoint.load()] restores it, the loader has a batch and there is a
    step to make, [main] raises [AttributeError] in its first iteration. *)
Theorem main_resumed_from_snapshot_raises :
  forall tensor_int32 tensor_float32 (s ts : TrainState)
         b (r : iterator) (fuel : nat),
    next (iter (data_loader env)) = Some (b, r) ->
    round_trip tensor_int32 tensor_float32 TrainState_default s = Ok ts ->
    checkpoint_load env TrainState_default
    = round_trip tensor_int32 tensor_float32 TrainState_default s ->
    guard env (loop_entry ts) = true ->
    main env (S fuel) = Raise AttributeError.
Proof.
  intros ti tf s ts b r fuel Hnext Hrt Hload Hguard.
  unfold main. rewrite Hload, Hrt. cbn [bind train_loop]. rewrite Hguard.
  unfold round_trip in Hrt.
  apply bind_Ok in Hrt as (sd & Hsd & Hts).
  apply state_dict_Ok in Hsd as (n & c & _ & _ & ->).
  cbn in Hts. injection Hts as <-.
  rewrite (iteration_Raise env b r Hnext
             (loop_entry {| step := n; current_loss := c;
                            losses := PyFloat c |}) c eq_refl).
  reflexivity.
Qed.

(** X8: when the configured number of steps is not the sentinel and the
    state has reached it, the body is not entered, whatever the fuel, the
    loader and the logging frequency: the loop returns the state as it
    found it.  So [main] with zero or fewer steps configured fetches no
    batch and asks for no save. *)
Theorem train_loop_skips_body :
  (forall st fuel,
      training_steps (job_config env) <> -1 ->
      training_steps (job_config env) <= step (train_state st) ->
      train_loop env fuel st = Ok (Finished st)) /\
  (forall ts fuel,
      checkpoint_load env TrainState_default = Ok ts ->
      training_steps (job_config env) <> -1 ->
      training_steps (job_config env) <= step ts ->
      main env fuel = Ok (Finished (loop_entry ts)) /\
      trace (loop_entry (Batch := Batch) ts) = []).
Proof.
  assert (forall st fuel,
             training_steps (job_config env) <> -1 ->
             training_steps (job_config env) <= step (train_state st) ->
             train_loop env fuel st = Ok (Finished st)) as Hloop.
  { intros st fuel HN Hle.
    assert (guard env st = false) as Hg.
    { unfold guard. apply Z.eqb_neq in HN as ->.
      replace (_ <? _) with false by (symmetry; apply Z.ltb_ge; lia).
      reflexivity. }
    destruct fuel; cbn [train_loop]; rewrite Hg; reflexivity. }
  split; [exact Hloop |].
  intros ts fuel Hload HN Hle. split; [| reflexivity].
  unfold main. rewrite Hload. cbn [bind].
  apply Hloop; assumption.
Qed.

End IterationOutcome.

Section RunFacts.

Context {Batch Loader : Type} {loader_iterable : Iterable Loader Batch}.
Variable env : Env Batch Loader.

Implicit Types (st : LoopState Batch) (b : Batch) (xs : list float).

(** A property of the state and its list of losses that every iteration
    keeps holds after any number of them. *)
Lemma after_iterations_keeps
  (P : LoopState Batch -> list float -> Prop) b :
  (forall st xs,
      P st xs -> P (after_iteration env st b xs) (xs ++ [loss_of env st b])) ->
  forall n st xs,
    P st xs -> exists ys, P (after_iterations env n st b xs) ys.
Proof.
  intros Hkeep. induction n as [| n IH]; intros st xs HP;
    cbn [after_iterations].
  - exists xs. exact HP.
  - apply IH with (xs := xs ++ [loss_of env st b]). apply Hkeep, HP.
Qed.

Lemma profiler_steps_iteration st b xs :
  count is_profiler_step (iteration_events env st b xs)
  = if profiler_active env then 1%nat else 0%nat.
Proof.
  unfold iteration_events, compute_events, optimizer_events, report_events,
    save_event.
  destruct (skipped env st b); destruct (profiler_active env);
    destruct (logs_at env _); reflexivity.
Qed.

Lemma optimizer_calls_iteration st b xs :
  (count is_optimizer_step (iteration_events env st b xs)
   + count is_optimizer_skipped (iteration_events env st b xs))%nat
  = 1%nat.
Proof.
  unfold iteration_events, compute_events, optimizer_events, report_events,
    save_event.
  destruct (skipped env st b); destruct (profiler_active env);
    destruct (logs_at env _); reflexivity.
Qed.

Lemma after_iterations_profiler_steps n : forall st b xs,
  count is_profiler_step (trace (after_iterations env n st b xs))
  = (count is_profiler_step (trace st)
     + if profiler_active env then n else 0)%nat.
Proof.
  induction n as [| n IH]; intros st b xs; cbn [after_iterations].
  - destruct (profiler_active env); lia.
  - rewrite IH. cbn [after_iteration trace].
    rewrite count_app, profiler_steps_iteration.
    destruct (profiler_active env); lia.
Qed.

Lemma after_iterations_optimizer_calls n : forall st b xs,
  (count is_optimizer_step (trace (after_iterations env n st b xs))
   + count is_optimizer_skipped (trace (after_iterations env n st b xs)))%nat
  = (count is_optimizer_step (trace st)
     + count is_optimizer_skipped (trace st) + n)%nat.
Proof.
  induction n as [| n IH]; intros st b xs; cbn [after_iterations].
  - lia.
  - rewrite IH. cbn [after_iteration trace].
    rewrite !count_app.
    pose proof (optimizer_calls_iteration st b xs). lia.
Qed.

Lemma mod_before_multiple (f s : Z) :
  0 < f -> s mod f = 0 -> (s - 1) mod f = f - 1.
Proof.
  intros Hf Hs. symmetry.
  apply (Z.mod_unique_pos _ _ (s / f - 1)); [lia |].
  pose proof (Z.div_mod s f ltac:(lia)). lia.
Qed.

Lemma mod_after_non_multiple (f s : Z) :
  0 < f -> s mod f <> 0 -> s mod f = (s - 1) mod f + 1.
Proof.
  intros Hf Hs.
  pose proof (Z.mod_pos_bound s f Hf) as Hb.
  assert ((s - 1) mod f = s mod f - 1) as ->; [| lia].
  symmetry. apply (Z.mod_unique_pos _ _ (s / f)); [lia |].
  pose proof (Z.div_mod s f ltac:(lia)). lia.
Qed.

Lemma mod_abs_eqb (f a : Z) :
  f <> 0 -> (a mod f =? 0) = (a mod Z.abs f =? 0).
Proof.
  intros Hf. apply eq_true_iff_eq. rewrite !Z.eqb_eq.
  rewrite !Z.mod_divide by lia.
  symmetry. apply Z.divide_abs_l.
Qed.

Lemma save_inv_kept st b xs :
  save_inv env st xs ->
  save_inv env (after_iteration env st b xs) (xs ++ [loss_of env st b]).
Proof.
  intros (Hl & Hs & HF). unfold save_inv.
  cbn [after_iteration train_state advanced step losses trace].
  split; [reflexivity |].
  split; [rewrite length_app; cbn [length]; lia |].
  apply Forall_app. split; [exact HF |].
  assert (save_record_ok (training_steps (job_config env))
            (save_event env st b xs)) as Hsave.
  { cbn. repeat split. rewrite length_app. cbn [length]. f_equal. lia. }
  unfold iteration_events, compute_events, optimizer_events, report_events.
  destruct (skipped env st b); destruct (profiler_active env);
    destruct (logs_at env _);
    repeat (apply Forall_cons || apply Forall_nil);
    solve [exact I | exact Hsave].
Qed.

Lemma metric_record_ok_next st b xs (l : float) :
  0 < metrics_log_freq (job_config env) ->
  window_inv env (metrics_log_freq (job_config env)) b st xs ->
  step (train_state st) mod metrics_log_freq (job_config env) = 0 ->
  metric_record_ok (metrics_log_freq (job_config env)) (numel env b)
    (@MetricLog Batch (step (train_state st) + 1)
                (losses_since_last_log st ++ [l])
                (nwords_since_last_log st + numel env b)).
Proof.
  intros Hf (Hl & Hs & (pre & Hpre) & Hn & Hw & HF) Hm.
  cbn [metric_record_ok]. rewrite length_app. cbn [length].
  split; [| rewrite Hn; lia].
  destruct (Z.eq_dec (step (train_state st)) 0) as [H0 | H0].
  - rewrite H0. cbn [Z.add Z.eqb Pos.eqb].
    rewrite Hpre, length_app in Hs. lia.
  - replace (step (train_state st) + 1 =? 1) with false
      by (symmetry; apply Z.eqb_neq; lia).
    destruct Hw as [Hw | Hw]; [contradiction |].
    rewrite (mod_before_multiple _ _ Hf Hm) in Hw. lia.
Qed.

Lemma window_inv_kept st b xs :
  0 < metrics_log_freq (job_config env) ->
  window_inv env (metrics_log_freq (job_config env)) b st xs ->
  window_inv env (metrics_log_freq (job_config env)) b
             (after_iteration env st b xs) (xs ++ [loss_of env st b]).
Proof.
  intros Hf Hinv.
  pose proof (metric_record_ok_next st b xs (loss_of env st b) Hf Hinv)
    as Hrecord.
  destruct Hinv as (Hl & Hs & (pre & Hpre) & Hn & Hw & HF).
  set (f := metrics_log_freq (job_config env)) in *.
  assert (logs_at env (step (train_state st) + 1)
          = (step (train_state st) mod f =? 0)) as Hlogs.
  { unfold logs_at. fold f. f_equal. f_equal. lia. }
  assert (0 <= step (train_state st)) as Hs0 by lia.
  unfold window_inv.
  cbn [after_iteration train_state advanced step losses trace
       losses_since_last_log nwords_since_last_log].
  rewrite Hlogs.
  assert (Forall (metric_record_ok f (numel env b))
            (iteration_events env st b xs)) as Hevents.
  { unfold iteration_events, compute_events, optimizer_events,
      report_events, save_event.
    rewrite Hlogs.
    destruct (skipped env st b); destruct (profiler_active env);
      destruct (step (train_state st) mod f =? 0) eqn:Hm;
      repeat (apply Forall_cons || apply Forall_nil);
      try exact I;
      apply Hrecord, Z.eqb_eq, Hm. }
  split; [reflexivity |].
  split; [rewrite length_app; cbn [length]; lia |].
  destruct (step (train_state st) mod f =? 0) eqn:Hm.
  - apply Z.eqb_eq in Hm.
    split; [exists (xs ++ [loss_of env st b]); rewrite app_nil_r;
            reflexivity |].
    split; [cbn; lia |].
    split; [right; cbn [length];
            replace (step (train_state st) + 1 - 1)
              with (step (train_state st)) by lia;
            rewrite Hm; reflexivity |].
    apply Forall_app. split; assumption.
  - apply Z.eqb_neq in Hm.
    split; [exists pre; rewrite Hpre, <- app_assoc; reflexivity |].
    split; [rewrite length_app; cbn [length]; rewrite Hn; lia |].
    split.
    + right. rewrite length_app. cbn [length].
      replace (step (train_state st) + 1 - 1)
        with (step (train_state st)) by lia.
      destruct Hw as [H0 | Hw].
      * rewrite H0 in Hm. rewrite Z.mod_0_l in Hm by lia. contradiction.
      * rewrite (mod_after_non_multiple f _ Hf Hm). lia.
    + apply Forall_app. split; assumption.
Qed.

Section Running.

Variable b0 : Batch.
Variable rest : iterator.
Hypothesis first_batch : next (iter (data_loader env)) = Some (b0, rest).
Hypothesis log_freq_nonzero : metrics_log_freq (job_config env) <> 0.

(** X9: an iteration adds one to [step] and one element to [losses], so the
    difference between [step] and the length of [losses] never changes: a
    state that starts with the two apart stays that far apart. *)
Theorem step_losses_gap_kept :
  forall n st xs,
    losses (train_state st) = PyList xs ->
    exists st' ys,
      iterations env n st = Ok st' /\
      losses (train_state st') = PyList ys /\
      step (train_state st') - Z.of_nat (length ys)
      = step (train_state st) - Z.of_nat (length xs).
Proof.
  intros n st xs Hxs.
  destruct (after_iterations_losses env n st b0 xs Hxs) as (ys & Hys & Hlen).
  exists (after_iterations env n st b0 xs), (xs ++ ys).
  split; [exact (iterations_Ok env b0 rest first_batch log_freq_nonzero
                   n st xs Hxs) |].
  split; [exact Hys |].
  rewrite after_iterations_step, length_app. lia.
Qed.

(** X10: a run that goes on from step [s] of [total] configured steps makes
    exactly [total - s] iterations and leaves the loop at step [total]: it
    fetches that many batches, appends that many losses, asks for the saves
    of steps [s + 1] to [total], and emits the metric records of the steps
    among them that the cadence selects: the cadence follows the step
    count, not the number of iterations since the run went on. *)
Theorem train_loop_goes_on :
  forall st xs k fuel,
    losses (train_state st) = PyList xs ->
    training_steps (job_config env) <> -1 ->
    step (train_state st) + Z.of_nat k = training_steps (job_config env) ->
    (k <= fuel)%nat ->
    exists st' ys,
      train_loop env fuel st = Ok (Finished st') /\
      step (train_state st') = training_steps (job_config env) /\
      losses (train_state st') = PyList (xs ++ ys) /\
      length ys = k /\
      fetched (trace st') = fetched (trace st) ++ repeat b0 k /\
      saves (trace st')
      = saves (trace st)
        ++ map (fun s => (s, s =? training_steps (job_config env)))
               (steps_after (step (train_state st)) k) /\
      metric_steps (trace st')
      = metric_steps (trace st)
        ++ filter (logs_at env) (steps_after (step (train_state st)) k).
Proof.
  intros st xs k fuel Hxs HN Hk Hfuel.
  destruct (after_iterations_losses env k st b0 xs Hxs) as (ys & Hys & Hlen).
  exists (after_iterations env k st b0 xs), ys.
  split; [exact (train_loop_Finished env b0 rest first_batch
                   log_freq_nonzero k fuel st xs Hxs Hk HN Hfuel) |].
  rewrite after_iterations_step, after_iterations_fetched,
    after_iterations_saves, after_iterations_metric_steps.
  repeat split; auto.
Qed.

(** X11: within an iteration the loss is one value throughout: what the
    forward pass returns is what [current_loss] holds afterwards, what is
    appended to [losses], what goes into the window or the metric record,
    and what the per-step log line and the save see. *)
Theorem loss_is_one_value :
  forall st xs,
    losses (train_state st) = PyList xs ->
    exists st' l,
      iteration env st = Ok st' /\
      l = forward_loss env (trace st ++ [NextBatch b0; ZeroGrad]) b0 /\
      In (Forward b0 l) (trace st') /\
      current_loss (train_state st') = l /\
      losses (train_state st') = PyList (xs ++ [l]) /\
      In (Rank0Log (step (train_state st')) l) (trace st') /\
      (if logs_at env (step (train_state st'))
       then In (MetricLog (step (train_state st'))
                          (losses_since_last_log st ++ [l])
                          (nwords_since_last_log st + numel env b0))
               (trace st')
       else losses_since_last_log st' = losses_since_last_log st ++ [l]) /\
      In (CheckpointSave (step (train_state st'))
                         (step (train_state st')
                          =? training_steps (job_config env))
                         {| step := step (train_state st');
                            current_loss := l;
                            losses := PyList (xs ++ [l]) |})
         (trace st').
Proof.
  intros st xs Hxs.
  exists (after_iteration env st b0 xs), (loss_of env st b0).
  split; [exact (iteration_Ok env b0 rest first_batch log_freq_nonzero
                   st xs Hxs) |].
  cbn [after_iteration train_state advanced current_loss losses step trace
       losses_since_last_log].
  unfold iteration_events, compute_events, optimizer_events, report_events,
    save_event, advanced.
  split; [reflexivity |].
  destruct (skipped env st b0); destruct (profiler_active env);
    destruct (logs_at env _);
    repeat split; apply in_or_app; right; cbn; tauto.
Qed.

(** X12: every iteration makes the gradient calls once each and in one
    order: fetch, [zero_grad], forward, backward, unscale, clip, then the
    optimizer step or its skipping as the scaler decides, then the scaler
    update; nothing after that in the iteration touches the gradients. *)
Theorem gradient_calls_in_order :
  forall st xs,
    losses (train_state st) = PyList xs ->
    exists st' l tail,
      iteration env st = Ok st' /\
      trace st'
      = trace st
        ++ [NextBatch b0; ZeroGrad; Forward b0 l; Backward; Unscale;
            ClipGradNorm;
            if found_inf env
                 (trace st ++ [NextBatch b0; ZeroGrad; Forward b0 l;
                               Backward; Unscale; ClipGradNorm])
            then OptimizerSkipped else OptimizerStep;
            ScalerUpdate]
        ++ tail /\
      count is_gradient_call tail = 0%nat /\
      count is_fetch_or_save tail = 1%nat.
Proof.
  intros st xs Hxs.
  exists (after_iteration env st b0 xs), (loss_of env st b0),
    ((if profiler_active env then [ProfilerStep] else [])
     ++ report_events env st b0 ++ [save_event env st b0 xs]).
  split; [exact (iteration_Ok env b0 rest first_batch log_freq_nonzero
                   st xs Hxs) |].
  cbn [after_iteration trace].
  unfold iteration_events, compute_events, optimizer_events, skipped,
    compute_events, report_events, save_event.
  split.
  - cbn [app]. rewrite <- ?app_assoc. reflexivity.
  - destruct (profiler_active env); destruct (logs_at env _);
      split; reflexivity.
Qed.

(** X13: over any number of iterations the optimizer is either stepped or
    skipped once per iteration, and the profiler is stepped once per
    iteration when it is active and never when it is not. *)
Theorem optimizer_and_profiler_calls :
  forall n, exists st',
    iterations env n (loop_entry TrainState_default) = Ok st' /\
    (count is_optimizer_step (trace st')
     + count is_optimizer_skipped (trace st'))%nat = n /\
    count is_profiler_step (trace st')
    = if profiler_active env then n else 0%nat.
Proof.
  intros n. eexists.
  split; [exact (iterations_Ok env b0 rest first_batch log_freq_nonzero
                   n (loop_entry TrainState_default) [] eq_refl) |].
  rewrite after_iterations_optimizer_calls, after_iterations_profiler_steps.
  split; reflexivity.
Qed.

(** X14: in a run that starts from a state with as many losses as steps,
    every save is asked for the step the state holds at that time, the
    state then holds that many losses, and the save is forced exactly when
    that step is the configured number of steps. *)
Theorem saves_see_consistent_state :
  forall (ts : TrainState) xs n,
    losses ts = PyList xs ->
    step ts = Z.of_nat (length xs) ->
    exists st',
      iterations env n (loop_entry ts) = Ok st' /\
      Forall (save_record_ok (training_steps (job_config env))) (trace st').
Proof.
  intros ts xs n Hxs Hstep.
  exists (after_iterations env n (loop_entry ts) b0 xs).
  split; [exact (iterations_Ok env b0 rest first_batch log_freq_nonzero
                   n (loop_entry ts) xs Hxs) |].
  destruct (after_iterations_keeps (save_inv env) b0
              (fun st ys => save_inv_kept st b0 ys)
              n (loop_entry ts) xs) as (ys & _ & _ & HF).
  - repeat split; [exact Hxs | exact Hstep | apply Forall_nil].
  - exact HF.
Qed.

(** X15: with a positive logging frequency [f], in a run from a fresh
    [TrainState] the metric record of step 1 is computed from one loss and
    every later record from exactly [f] losses, and the word count in a
    record is the number of words of a batch times the number of losses in
    it. *)
Theorem metric_records_cover_window :
  forall n,
    0 < metrics_log_freq (job_config env) ->
    exists st',
      iterations env n (loop_entry TrainState_default) = Ok st' /\
      Forall (metric_record_ok (metrics_log_freq (job_config env))
                               (numel env b0))
             (trace st').
Proof.
  intros n Hf.
  exists (after_iterations env n (loop_entry TrainState_default) b0 []).
  split; [exact (iterations_Ok env b0 rest first_batch log_freq_nonzero
                   n (loop_entry TrainState_default) [] eq_refl) |].
  destruct (after_iterations_keeps
              (window_inv env (metrics_log_freq (job_config env)) b0) b0
              (fun st ys => window_inv_kept st b0 ys Hf)
              n (loop_entry TrainState_default) [])
    as (ys & _ & _ & _ & _ & _ & HF).
  - repeat split; [exists []; reflexivity | left; reflexivity
                   | apply Forall_nil].
  - exact HF.
Qed.

(** X16: with a positive logging frequency [f], after [n >= 1] iterations
    from a fresh [TrainState] the window holds the last [(n - 1) mod f]
    losses of [losses], and the word count is the number of words of a
    batch times that number. *)
Theorem window_is_tail_of_losses :
  forall n,
    0 < metrics_log_freq (job_config env) ->
    (1 <= n)%nat ->
    exists st' pre,
      iterations env n (loop_entry TrainState_default) = Ok st' /\
      losses (train_state st') = PyList (pre ++ losses_since_last_log st') /\
      Z.of_nat (length (losses_since_last_log st'))
      = (Z.of_nat n - 1) mod metrics_log_freq (job_config env) /\
      nwords_since_last_log st'
      = Z.of_nat (length (losses_since_last_log st')) * numel env b0.
Proof.
  intros n Hf Hn.
  destruct (after_iterations_keeps
              (window_inv env (metrics_log_freq (job_config env)) b0) b0
              (fun st ys => window_inv_kept st b0 ys Hf)
              n (loop_entry TrainState_default) [])
    as (ys & Hl & Hs & (pre & Hpre) & Hw & Hlen & _).
  - repeat split; [exists []; reflexivity | left; reflexivity
                   | apply Forall_nil].
  - exists (after_iterations env n (loop_entry TrainState_default) b0 []),
      pre.
    split; [exact (iterations_Ok env b0 rest first_batch log_freq_nonzero
                     n (loop_entry TrainState_default) [] eq_refl) |].
    split; [rewrite Hl, Hpre; reflexivity |].
    split; [| exact Hw].
    rewrite after_iterations_step in Hlen. cbn in Hlen.
    destruct Hlen as [H0 | Hlen]; [lia | exact Hlen].
Qed.

(** X17: a negative logging frequency logs like its absolute value: for any
    frequency [f] other than zero, the metric records of a run from a fresh
    [TrainState] are those of the steps [s] with [(s - 1) mod |f| = 0]. *)
Theorem metric_log_cadence_any_sign :
  forall n, exists st',
    iterations env n (loop_entry TrainState_default) = Ok st' /\
    metric_steps (trace st')
    = filter (fun s =>
                (s - 1) mod Z.abs (metrics_log_freq (job_config env)) =? 0)
             (steps_after 0 n).
Proof.
  intros n. eexists.
  split; [exact (iterations_Ok env b0 rest first_batch log_freq_nonzero
                   n (loop_entry TrainState_default) [] eq_refl) |].
  rewrite after_iterations_metric_steps. cbn [app loop_entry trace
    metric_steps train_state step TrainState_default].
  apply filter_ext. intros s. unfold logs_at.
  apply mod_abs_eqb, log_freq_nonzero.
Qed.

End Running.

End RunFacts.

(** ** Before the loop *)

Module SetupFacts.

Import String.
Import Setup.

Section WithTables.

Context {Tokenizer LoaderFn ModelCls ParallelizeFn OtherArgs : Type}.

Variable w : World Tokenizer LoaderFn ModelCls ParallelizeFn OtherArgs.
Variable job_config : SetupConfig.

Implicit Types
  (tr : list (setup_event Tokenizer LoaderFn ModelCls ParallelizeFn OtherArgs)).

Lemma build_optimizer_cases tr :
  @build_optimizer Tokenizer LoaderFn ModelCls ParallelizeFn OtherArgs
    job_config tr
  = if String.eqb (optimizer_name job_config) "Adam"%string
    then (tr ++ [NewOptimizer Adam (optimizer_lr job_config)], Returned Adam)
    else if String.eqb (optimizer_name job_config) "AdamW"%string
    then (tr ++ [NewOptimizer AdamW (optimizer_lr job_config)],
          Returned AdamW)
    else (tr, Raised (NotImplementedError
                        ("optimizer " ++ optimizer_name job_config
                         ++ " not added")%string)).
Proof.
  unfold build_optimizer.
  destruct (String.eqb (optimizer_name job_config) "Adam"%string);
    [reflexivity |].
  destruct (String.eqb (optimizer_name job_config) "AdamW"%string);
    reflexivity.
Qed.

(** X18: [build_optimizer] builds an optimizer exactly for the names
    ["Adam"] and ["AdamW"], compared letter for letter, with the configured
    learning rate, and makes one call to do so; for any other name it
    raises [NotImplementedError] naming the optimizer, and builds nothing. *)
Theorem build_optimizer_returns_iff :
  forall tr,
    let (tr', r) :=
      @build_optimizer Tokenizer LoaderFn ModelCls ParallelizeFn OtherArgs
        job_config tr in
    match r with
    | Returned c =>
        (optimizer_name job_config = "Adam"%string /\ c = Adam \/
         optimizer_name job_config = "AdamW"%string /\ c = AdamW) /\
        tr' = tr ++ [NewOptimizer c (optimizer_lr job_config)]
    | Raised e =>
        optimizer_name job_config <> "Adam"%string /\
        optimizer_name job_config <> "AdamW"%string /\
        e = NotImplementedError
              ("optimizer " ++ optimizer_name job_config
               ++ " not added")%string /\
        tr' = tr
    end.
Proof.
  intros tr. rewrite build_optimizer_cases.
  destruct (String.eqb_spec (optimizer_name job_config) "Adam"%string)
    as [HA | HA].
  - split; [left; split; [exact HA | reflexivity] | reflexivity].
  - destruct (String.eqb_spec (optimizer_name job_config) "AdamW"%string)
      as [HW | HW].
    + split; [right; split; [exact HW | reflexivity] | reflexivity].
    + repeat split; assumption.
Qed.

Ltac run_setup :=
  cbv beta iota zeta delta [setup sbind call ret raise getitem int
                            build_grad_scaler].

Ltac look_up :=
  match goal with
  | |- context [match ?d ?k with Some _ => _ | None => _ end] =>
      destruct (d k) eqn:?
  | |- context [match ?d ?w ?k with Some _ => _ | None => _ end] =>
      destruct (d w k) eqn:?
  end.


Lemma is_float16_iff (d : option torch_dtype) :
  is_float16 d = true <-> d = Some float16.
Proof.
  destruct d as [[| |] |]; cbn; split; congruence.
Qed.

Ltac decide_all :=
  repeat (look_up; cbv beta iota zeta);
  try match goal with
      | |- context [is_fsdp ?w ?p] => destruct (is_fsdp w p) eqn:?
      end;
  cbv beta iota zeta;
  rewrite ?build_optimizer_cases;
  try match goal with
      | |- context [String.eqb (optimizer_name ?c) "Adam"%string] =>
          destruct (String.eqb_spec (optimizer_name c) "Adam"%string);
          [| destruct (String.eqb_spec (optimizer_name c) "AdamW"%string)]
      end;
  cbv beta iota zeta;
  try match goal with
      | |- context [is_float16 ?d] => destruct (is_float16 d) eqn:?
      end;
  cbv beta iota zeta;
  try match goal with
      | |- context [if compile ?c then _ else _] =>
          destruct (compile c) eqn:?
      end;
  cbv beta iota zeta;
  try match goal with
      | |- context [String.eqb (checkpoint_interval_type ?c) ?s] =>
          destruct (String.eqb_spec (checkpoint_interval_type c) s)
      end;
  cbv beta iota zeta.

(** The trace up to the application of the parallelisms. *)
Ltac up_to_parallelize :=
  match goal with
  | |- context [?a :: ?b :: ?c :: ?d :: ?e :: ?f :: ?g :: ?h :: ?i :: ?j
                :: ?k :: [Parallelize ?p]] =>
      exists p, [a; b; c; d; e; f; g; h; i; j; k]
  end;
  do 4 eexists;
  split; [reflexivity |];
  split; [assumption |];
  split; [reflexivity |];
  split; [cbn; eauto 12 |];
  split; cbn; eauto 12.

(** X19: whatever [main] runs into before the loop, it builds optimizer,
    scheduler, scaler, metric logger and checkpoint manager only on a model
    that the parallelize function of the model's name returned as an FSDP
    model; it calls [torch.compile] only when the job asks for it; and the
    model it builds always has the vocabulary size of the tokenizer, not
    the one the table of model configurations holds. *)
Theorem setup_builds_only_when_checked :
  let (tr, r) := setup w job_config [] in
  (forall e, In e tr -> after_assert e = true ->
     exists par,
       models_parallelize_fns w (model_name job_config) = Some par /\
       is_fsdp w par = true) /\
  (In TorchCompile tr -> compile job_config = true) /\
  (forall cls args, In (FromModelArgs cls args) tr ->
     exists tok,
       model_name_to_tokenizer w (model_name job_config) = Some tok /\
       vocab_size args = n_words w tok (tokenizer_path job_config)).
Proof.
  run_setup. decide_all.
  all: cbn [app In].
  all: split;
    [ intros ev He Ha;
      repeat (destruct He as [<- | He]; [try discriminate Ha; eauto |]);
      contradiction
    | split;
      [ intros Hin;
        repeat (destruct Hin as [Hin | Hin]; [try discriminate Hin; auto |]);
        contradiction
      | intros cls args Hin;
        repeat (destruct Hin as [Hin | Hin];
                [try discriminate Hin; injection Hin as <- <-; eauto |]);
        contradiction ] ].
Qed.

(** X20: lines 79-164 of [main] return normally exactly when [WORLD_SIZE]
    is set to an integer, the model name is in the tables of tokenizers,
    model classes, model configurations and parallelize functions, the
    dataset is in the table of data loaders, the configuration name is
    among the model's configurations, the parallelized model is an FSDP
    model, and the optimizer is ["Adam"] or ["AdamW"]. *)
Theorem setup_returns_iff :
  (exists b, snd (setup w job_config []) = Returned b) <->
  (exists text ws tok fn cls by_config args par,
      environ w "WORLD_SIZE"%string = Some text /\
      int_of w text = Some ws /\
      model_name_to_tokenizer w (model_name job_config) = Some tok /\
      dataloader_fn w (dataset job_config) = Some fn /\
      model_name_to_cls w (model_name job_config) = Some cls /\
      models_config w (model_name job_config) = Some by_config /\
      by_config (model_config_name job_config) = Some args /\
      models_parallelize_fns w (model_name job_config) = Some par /\
      is_fsdp w par = true /\
      (optimizer_name job_config = "Adam"%string \/
       optimizer_name job_config = "AdamW"%string)).
Proof.
  split.
  - run_setup. decide_all.
    all: cbn [snd]; intros [b Hb]; try discriminate Hb.
    all: do 8 eexists; repeat split; eauto.
  - intros (text & ws & tok & fn & cls & byc & args & par
            & H1 & H2 & H3 & H4 & H5 & H6 & H7 & H8 & H9 & H10).
    run_setup. rewrite H1. cbv beta iota zeta.
    rewrite H2. cbv beta iota zeta.
    rewrite H3. cbv beta iota zeta.
    rewrite H4. cbv beta iota zeta.
    rewrite H5. cbv beta iota zeta.
    rewrite H6. cbv beta iota zeta.
    rewrite H7. cbv beta iota zeta.
    rewrite H8. cbv beta iota zeta.
    rewrite H9. cbv beta iota zeta.
    rewrite build_optimizer_cases.
    destruct H10 as [-> | ->]; cbv beta iota zeta;
      destruct (is_float16 _); cbv beta iota zeta;
      destruct (compile job_config); cbv beta iota zeta;
      eexists; reflexivity.
Qed.

(** X21: what [main] raises before the loop tells what was wrong and how
    far it got.  A [KeyError] names [WORLD_SIZE], the model, the dataset or
    the model configuration, whichever table lacked it; a [ValueError]
    comes from a [WORLD_SIZE] that is no integer, before anything but the
    logger is set up; an [AssertionError] comes from a parallelized model
    that is not an FSDP model, and a [NotImplementedError] from an
    optimizer that is neither ["Adam"] nor ["AdamW"], in both cases right
    after the parallelisms were applied, so after tokenizer, data loader
    and model have been built. *)
Theorem setup_raises_because :
  let (tr, r) := setup w job_config [] in
  match r with
  | Returned _ => True
  | Raised (KeyError k) =>
      (k = "WORLD_SIZE"%string /\ environ w k = None /\ tr = [InitLogger]) \/
      (k = model_name job_config /\
       (model_name_to_tokenizer w k = None \/
        model_name_to_cls w k = None \/
        models_config w k = None \/
        models_parallelize_fns w k = None)) \/
      (k = dataset job_config /\ dataloader_fn w k = None) \/
      (k = model_config_name job_config /\
       exists by_config,
         models_config w (model_name job_config) = Some by_config /\
         by_config k = None)
  | Raised (ValueError text) =>
      environ w "WORLD_SIZE"%string = Some text /\
      int_of w text = None /\
      tr = [InitLogger]
  | Raised AssertionError =>
      exists par pre cls args tok fn,
        models_parallelize_fns w (model_name job_config) = Some par /\
        is_fsdp w par = false /\
        tr = pre ++ [Parallelize par] /\
        In (FromModelArgs cls args) pre /\
        In (CreateTokenizer tok (tokenizer_path job_config)) pre /\
        In (BuildDataLoader fn (batch_size job_config) (seq_len job_config)
                            (mesh_size_0 w) (mesh_local_rank_0 w)) pre
  | Raised (NotImplementedError message) =>
      optimizer_name job_config <> "Adam"%string /\
      optimizer_name job_config <> "AdamW"%string /\
      message
      = ("optimizer " ++ optimizer_name job_config ++ " not added")%string /\
      exists par pre cls args tok fn,
        models_parallelize_fns w (model_name job_config) = Some par /\
        is_fsdp w par = true /\
        tr = pre ++ [Parallelize par] /\
        In (FromModelArgs cls args) pre /\
        In (CreateTokenizer tok (tokenizer_path job_config)) pre /\
        In (BuildDataLoader fn (batch_size job_config) (seq_len job_config)
                            (mesh_size_0 w) (mesh_local_rank_0 w)) pre
  end.
Proof.
  run_setup. decide_all.
  all: cbn [app]; try exact I.
  all: try (left; repeat split; assumption).
  all: try (right; left; split; [reflexivity |]; tauto).
  all: try (right; right; left; split; [reflexivity | assumption]).
  all: try (right; right; right; split; [reflexivity |]; eauto).
  all: try (repeat split; assumption).
  all: repeat (split; [assumption || reflexivity |]).
  all: up_to_parallelize.
Qed.

(** X22: when lines 79-164 of [main] return, the optimizer has been built
    right after the parallelisms were applied, then the scheduler, then
    the scaler after one log line, then the metric logger; [torch.compile]
    comes after all of them and only if the job asks for it; the
    checkpoint manager is built last.  The scaler is enabled exactly when
    the parameters of the parallelized model are [float16]; the checkpoint
    interval counts seconds exactly when the configured type is
    ["seconds"], and steps for any other text; the train state is a fresh
    one. *)
Theorem setup_builds_in_order :
  let (tr, r) := setup w job_config [] in
  match r with
  | Raised _ => True
  | Returned b =>
      built_train_state b = TrainState_default /\
      (built_optimizer b = Adam
       <-> optimizer_name job_config = "Adam"%string) /\
      (built_interval_type b = SECONDS
       <-> checkpoint_interval_type job_config = "seconds"%string) /\
      exists pre par message,
        models_parallelize_fns w (model_name job_config) = Some par /\
        (built_scaler_enabled b = true
         <-> param_dtype w par = Some float16) /\
        tr = pre
             ++ [Parallelize par;
                 NewOptimizer (built_optimizer b) (optimizer_lr job_config);
                 GetLrScheduler;
                 Log (Text message);
                 NewGradScaler (built_scaler_enabled b);
                 BuildMetricLogger]
             ++ (if compile job_config
                 then [Log (CompilingModel (model_name job_config));
                       TorchCompile]
                 else [])
             ++ [ModelTrain;
                 NewCheckpointManager (checkpoint_folder job_config)
                                      (built_interval_type b)
                                      (checkpoint_interval job_config)]
  end.
Proof.
  run_setup. decide_all.
  all: cbn [app built_train_state built_optimizer built_interval_type
            built_scaler_enabled]; try exact I.
  all: split; [reflexivity |].
  all: split; [split; congruence |].
  all: split; [split; congruence |].
  all: match goal with
       | |- context [?a :: ?b :: ?c :: ?d :: ?e :: ?f :: ?g :: ?h :: ?i
                     :: ?j :: ?k :: Parallelize ?p :: _] =>
           exists [a; b; c; d; e; f; g; h; i; j; k], p
       end.
  all: eexists; split; [reflexivity |].
  all: rewrite <- is_float16_iff.
  all: split; [split; congruence |].
  all: reflexivity.
Qed.

End WithTables.
End SetupFacts.

(** * The further facts at the sample runs *)

(** X3 (witness): the state after one step with its list of losses and the
    state with a bare float in its place have the same snapshot. *)
Lemma state_dict_ignores_losses_witness :
  state_dict checked_int32 round_float32 Sample.after_one_step
  = state_dict checked_int32 round_float32 Cases.restored.
Proof.
  apply (state_dict_ignores_losses checked_int32 round_float32
           Sample.after_one_step Cases.restored); reflexivity.
Defined.

(** X4 (witness): the restored state comes back as it is, the state after
    one step does not. *)
Lemma round_trip_exact_iff_witness :
  round_trip checked_int32 round_float32 TrainState_default Cases.restored
  = Ok Cases.restored /\
  round_trip checked_int32 round_float32 TrainState_default
             Sample.after_one_step
  <> Ok Sample.after_one_step.
Proof.
  split.
  - apply (round_trip_exact_iff checked_int32 round_float32
             TrainState_default Cases.restored eq_refl eq_refl).
    reflexivity.
  - intros H.
    apply (round_trip_exact_iff checked_int32 round_float32
             TrainState_default Sample.after_one_step eq_refl eq_refl) in H.
    discriminate H.
Defined.

(** X5 (witness): with no batch the first iteration raises
    [StopIteration]; in the sample run it returns. *)
Lemma iteration_raises_only_witness :
  ((StopIteration = StopIteration /\
    next (iter (data_loader Cases.env_empty_loader)) = None) \/
   (StopIteration = AttributeError /\
    next (iter (data_loader Cases.env_empty_loader)) <> None /\
    exists x,
      losses (train_state (loop_entry (Batch := Sample.Batch)
                                      TrainState_default)) = PyFloat x) \/
   (StopIteration = ZeroDivisionError /\
    next (iter (data_loader Cases.env_empty_loader)) <> None /\
    (exists xs,
        losses (train_state (loop_entry (Batch := Sample.Batch)
                                        TrainState_default)) = PyList xs) /\
    metrics_log_freq (job_config Cases.env_empty_loader) = 0)) /\
  (exists st',
      iteration Sample.env (loop_entry TrainState_default) = Ok st').
Proof.
  split.
  - exact (proj1 (iteration_raises_only
                    (loader_iterable := list_Iterable Sample.Batch)
                    Cases.env_empty_loader (loop_entry TrainState_default))
                 StopIteration eq_refl).
  - apply (proj2 (iteration_raises_only
                    (loader_iterable := list_Iterable Sample.Batch)
                    Sample.env (loop_entry TrainState_default))).
    + discriminate.
    + exists []. reflexivity.
    + cbn. lia.
Defined.

(** X6 (witness): the run with no batch and the run with logging frequency
    zero. *)
Lemma main_raises_in_first_iteration_witness :
  main Cases.env_empty_loader 1 = Raise StopIteration /\
  main Cases.env_log_freq_zero 1 = Raise ZeroDivisionError.
Proof.
  split.
  - apply (proj1 (main_raises_in_first_iteration
                    (loader_iterable := list_Iterable Sample.Batch)
                    Cases.env_empty_loader TrainState_default 0
                    eq_refl eq_refl)).
    reflexivity.
  - apply (proj2 (main_raises_in_first_iteration
                    (loader_iterable := list_Iterable Sample.Batch)
                    Cases.env_log_freq_zero TrainState_default 0
                    eq_refl eq_refl)
                 Sample.first Sample.others []); reflexivity.
Defined.

(** X7 (witness): the run that finds the snapshot taken after one step. *)
Lemma main_resumed_from_snapshot_raises_witness :
  main Cases.env_resumed 10 = Raise AttributeError.
Proof.
  apply (main_resumed_from_snapshot_raises
           (loader_iterable := list_Iterable Sample.Batch)
           Cases.env_resumed checked_int32 round_float32
           Sample.after_one_step Cases.restored
           Sample.first Sample.others 9);
    reflexivity.
Defined.

(** X8 (witness): the run with zero steps configured. *)
Lemma train_loop_skips_body_witness :
  main Cases.env_no_steps 10
  = Ok (Finished (loop_entry TrainState_default)) /\
  trace (loop_entry (Batch := Sample.Batch) TrainState_default) = [].
Proof.
  apply (proj2 (train_loop_skips_body
                  (loader_iterable := list_Iterable Sample.Batch)
                  Cases.env_no_steps) TrainState_default 10%nat);
    [reflexivity | cbn; lia | cbn; lia].
Defined.

(** X9 (witness): two iterations from step 3 with one loss: step 5, three
    losses. *)
Lemma step_losses_gap_kept_witness :
  exists st' ys,
    iterations Sample.env 2 (loop_entry Cases.three_steps_one_loss) = Ok st' /\
    losses (train_state st') = PyList ys /\
    step (train_state st') - Z.of_nat (length ys) = 3 - 1.
Proof.
  exact (step_losses_gap_kept
           (loader_iterable := list_Iterable Sample.Batch)
           Sample.env Sample.first Sample.others eq_refl ltac:(cbn; lia)
           2%nat (loop_entry Cases.three_steps_one_loss) [Sample.half]
           eq_refl).
Defined.

(** X10 (witness): the sample run going on from step 3: seven iterations,
    one metric record, at step 6. *)
Lemma train_loop_goes_on_witness :
  exists st' ys,
    train_loop Sample.env 7 (loop_entry Cases.three_steps_in)
    = Ok (Finished st') /\
    step (train_state st') = 10 /\
    losses (train_state st')
    = PyList ([Sample.half; Sample.half; Sample.half] ++ ys) /\
    length ys = 7%nat /\
    fetched (trace st') = repeat Sample.first 7 /\
    saves (trace st') = map (fun s => (s, s =? 10)) (steps_after 3 7) /\
    metric_steps (trace st') = [6].
Proof.
  exact (train_loop_goes_on
           (loader_iterable := list_Iterable Sample.Batch)
           Sample.env Sample.first Sample.others eq_refl ltac:(cbn; lia)
           (loop_entry Cases.three_steps_in)
           [Sample.half; Sample.half; Sample.half] 7%nat 7%nat
           eq_refl ltac:(cbn; lia) eq_refl ltac:(lia)).
Defined.

(** X11 (witness): the first iteration of the sample run. *)
Lemma loss_is_one_value_witness :
  exists st' l,
    iteration Sample.env (loop_entry TrainState_default) = Ok st' /\
    l = Sample.half /\
    In (Forward Sample.first l) (trace st') /\
    current_loss (train_state st') = l /\
    losses (train_state st') = PyList [l] /\
    In (Rank0Log (step (train_state st')) l) (trace st') /\
    (if logs_at Sample.env (step (train_state st'))
     then In (MetricLog (step (train_state st')) [l] 3) (trace st')
     else losses_since_last_log st' = [l]) /\
    In (CheckpointSave (step (train_state st'))
                       (step (train_state st') =? 10)
                       {| step := step (train_state st');
                          current_loss := l; losses := PyList [l] |})
       (trace st').
Proof.
  exact (loss_is_one_value
           (loader_iterable := list_Iterable Sample.Batch)
           Sample.env Sample.first Sample.others eq_refl ltac:(cbn; lia)
           (loop_entry TrainState_default) [] eq_refl).
Defined.

(** X12 (witness): the second iteration of the sample run, in which the
    optimizer step is skipped. *)
Lemma gradient_calls_in_order_witness :
  exists st' l tail,
    iteration Sample.env Sample.after_first = Ok st' /\
    trace st'
    = trace Sample.after_first
      ++ [NextBatch Sample.first; ZeroGrad; Forward Sample.first l;
          Backward; Unscale; ClipGradNorm;
          if found_inf Sample.env
               (trace Sample.after_first
                ++ [NextBatch Sample.first; ZeroGrad;
                    Forward Sample.first l;
                    Backward; Unscale; ClipGradNorm])
          then OptimizerSkipped else OptimizerStep;
          ScalerUpdate]
      ++ tail /\
    count is_gradient_call tail = 0%nat /\
    count is_fetch_or_save tail = 1%nat.
Proof.
  exact (gradient_calls_in_order
           (loader_iterable := list_Iterable Sample.Batch)
           Sample.env Sample.first Sample.others eq_refl ltac:(cbn; lia)
           Sample.after_first [Sample.half] eq_refl).
Defined.

(** X13 (witness): ten iterations with an active profiler. *)
Lemma optimizer_and_profiler_calls_witness :
  exists st',
    iterations Cases.env_profiled 10 (loop_entry TrainState_default)
    = Ok st' /\
    (count is_optimizer_step (trace st')
     + count is_optimizer_skipped (trace st'))%nat = 10%nat /\
    count is_profiler_step (trace st') = 10%nat.
Proof.
  exact (optimizer_and_profiler_calls
           (loader_iterable := list_Iterable Sample.Batch)
           Cases.env_profiled Sample.first Sample.others
           eq_refl ltac:(cbn; lia) 10%nat).
Defined.

(** X14 (witness): the sample run going on from step 3 with three
    losses. *)
Lemma saves_see_consistent_state_witness :
  exists st',
    iterations Sample.env 7 (loop_entry Cases.three_steps_in) = Ok st' /\
    Forall (save_record_ok 10) (trace st').
Proof.
  exact (saves_see_consistent_state
           (loader_iterable := list_Iterable Sample.Batch)
           Sample.env Sample.first Sample.others eq_refl ltac:(cbn; lia)
           Cases.three_steps_in [Sample.half; Sample.half; Sample.half]
           7%nat eq_refl eq_refl).
Defined.

(** X15 (witness): the metric records of the sample run. *)
Lemma metric_records_cover_window_witness :
  exists st',
    iterations Sample.env 10 (loop_entry TrainState_default) = Ok st' /\
    Forall (metric_record_ok 5 3) (trace st').
Proof.
  exact (metric_records_cover_window
           (loader_iterable := list_Iterable Sample.Batch)
           Sample.env Sample.first Sample.others eq_refl ltac:(cbn; lia)
           10%nat ltac:(cbn; lia)).
Defined.

(** X16 (witness): after eight steps of the sample run the window holds the
    losses of steps 7 and 8. *)
Lemma window_is_tail_of_losses_witness :
  exists st' pre,
    iterations Sample.env 8 (loop_entry TrainState_default) = Ok st' /\
    losses (train_state st') = PyList (pre ++ losses_since_last_log st') /\
    Z.of_nat (length (losses_since_last_log st')) = 2 /\
    nwords_since_last_log st'
    = Z.of_nat (length (losses_since_last_log st')) * 3.
Proof.
  exact (window_is_tail_of_losses
           (loader_iterable := list_Iterable Sample.Batch)
           Sample.env Sample.first Sample.others eq_refl ltac:(cbn; lia)
           8%nat ltac:(cbn; lia) ltac:(lia)).
Defined.

(** X17 (witness): with logging frequency -5 the records are those of
    steps 1 and 6. *)
Lemma metric_log_cadence_any_sign_witness :
  exists st',
    iterations Cases.env_log_freq_negative 10
               (loop_entry TrainState_default) = Ok st' /\
    metric_steps (trace st') = [1; 6].
Proof.
  exact (metric_log_cadence_any_sign
           (loader_iterable := list_Iterable Sample.Batch)
           Cases.env_log_freq_negative Sample.first Sample.others
           eq_refl ltac:(cbn; lia) 10%nat).
Defined.

Module SetupWitnesses.

Import String.
Import Setup.

(** X18 (witness): ["AdamW"] is built, ["SGD"] is not. *)
Lemma build_optimizer_returns_iff_witness :
  ((optimizer_name SampleSetup.job = "Adam"%string /\ AdamW = Adam \/
    optimizer_name SampleSetup.job = "AdamW"%string /\ AdamW = AdamW) /\
   fst (build_optimizer (Tokenizer := string) (LoaderFn := string)
          (ModelCls := string) (ParallelizeFn := string) (OtherArgs := unit)
          SampleSetup.job [])
   = [] ++ [NewOptimizer AdamW (optimizer_lr SampleSetup.job)]) /\
  (optimizer_name SampleSetup.job_sgd <> "Adam"%string /\
   optimizer_name SampleSetup.job_sgd <> "AdamW"%string /\
   NotImplementedError "optimizer SGD not added"%string
   = NotImplementedError
       ("optimizer " ++ optimizer_name SampleSetup.job_sgd
        ++ " not added")%string /\
   fst (build_optimizer (Tokenizer := string) (LoaderFn := string)
          (ModelCls := string) (ParallelizeFn := string) (OtherArgs := unit)
          SampleSetup.job_sgd [])
   = []).
Proof.
  split.
  - exact (SetupFacts.build_optimizer_returns_iff
             (Tokenizer := string) (LoaderFn := string)
             (ModelCls := string) (ParallelizeFn := string)
             (OtherArgs := unit) SampleSetup.job []).
  - exact (SetupFacts.build_optimizer_returns_iff
             (Tokenizer := string) (LoaderFn := string)
             (ModelCls := string) (ParallelizeFn := string)
             (OtherArgs := unit) SampleSetup.job_sgd []).
Defined.

(** X19 (witness): the sample job on the sample world. *)
Lemma setup_builds_only_when_checked_witness :
  let (tr, r) := setup SampleSetup.world SampleSetup.job [] in
  (forall e, In e tr -> after_assert e = true ->
     exists par,
       models_parallelize_fns SampleSetup.world
         (model_name SampleSetup.job) = Some par /\
       is_fsdp SampleSetup.world par = true) /\
  (In TorchCompile tr -> compile SampleSetup.job = true) /\
  (forall cls args, In (FromModelArgs cls args) tr ->
     exists tok,
       model_name_to_tokenizer SampleSetup.world
         (model_name SampleSetup.job) = Some tok /\
       vocab_size args
       = n_words SampleSetup.world tok (tokenizer_path SampleSetup.job)).
Proof.
  exact (SetupFacts.setup_builds_only_when_checked
           SampleSetup.world SampleSetup.job).
Defined.

(** X20 (witness): the sample job returns; with the optimizer ["SGD"] it
    does not. *)
Lemma setup_returns_iff_witness :
  (exists b,
      snd (setup SampleSetup.world SampleSetup.job []) = Returned b) /\
  ~ (exists b,
        snd (setup SampleSetup.world SampleSetup.job_sgd []) = Returned b).
Proof.
  split.
  - apply (SetupFacts.setup_returns_iff SampleSetup.world SampleSetup.job).
    exists "4"%string, 4, "sentencepiece"%string,
      "build_alpaca_data_loader"%string, "Transformer"%string,
      (SampleSetup.lookup1 "small"%string
         {| vocab_size := -1; other_args := tt |}),
      {| vocab_size := -1; other_args := tt |},
      "parallelize_debugmodel"%string.
    repeat split; try reflexivity. right. reflexivity.
  - intros H.
    apply (SetupFacts.setup_returns_iff SampleSetup.world
             SampleSetup.job_sgd) in H.
    destruct H as (_ & _ & _ & _ & _ & _ & _ & _ & _ & _ & _ & _ & _
                   & _ & _ & _ & _ & [H | H]); discriminate H.
Defined.

(** X21 (witness): the sample job with the optimizer ["SGD"]. *)
Lemma setup_raises_because_witness :
  optimizer_name SampleSetup.job_sgd <> "Adam"%string /\
  optimizer_name SampleSetup.job_sgd <> "AdamW"%string /\
  "optimizer SGD not added"%string
  = ("optimizer " ++ optimizer_name SampleSetup.job_sgd
     ++ " not added")%string /\
  exists par pre cls args tok fn,
    models_parallelize_fns SampleSetup.world
      (model_name SampleSetup.job_sgd) = Some par /\
    is_fsdp SampleSetup.world par = true /\
    fst (setup SampleSetup.world SampleSetup.job_sgd [])
    = pre ++ [Parallelize par] /\
    In (FromModelArgs cls args) pre /\
    In (CreateTokenizer tok (tokenizer_path SampleSetup.job_sgd)) pre /\
    In (BuildDataLoader fn (batch_size SampleSetup.job_sgd)
                        (seq_len SampleSetup.job_sgd)
                        (mesh_size_0 SampleSetup.world)
                        (mesh_local_rank_0 SampleSetup.world)) pre.
Proof.
  exact (SetupFacts.setup_raises_because
           SampleSetup.world SampleSetup.job_sgd).
Defined.

(** X22 (witness): what the sample job builds. *)
Lemma setup_builds_in_order_witness :
  let (tr, r) := setup SampleSetup.world SampleSetup.job [] in
  match r with
  | Raised _ => True
  | Returned b =>
      built_train_state b = TrainState_default /\
      (built_optimizer b = Adam
       <-> optimizer_name SampleSetup.job = "Adam"%string) /\
      (built_interval_type b = SECONDS
       <-> checkpoint_interval_type SampleSetup.job = "seconds"%string) /\
      exists pre par message,
        models_parallelize_fns SampleSetup.world
          (model_name SampleSetup.job) = Some par /\
        (built_scaler_enabled b = true
         <-> param_dtype SampleSetup.world par = Some float16) /\
        tr = pre
             ++ [Parallelize par;
                 NewOptimizer (built_optimizer b)
                              (optimizer_lr SampleSetup.job);
                 GetLrScheduler;
                 Log (Text message);
                 NewGradScaler (built_scaler_enabled b);
                 BuildMetricLogger]
             ++ (if compile SampleSetup.job
                 then [Log (CompilingModel (model_name SampleSetup.job));
                       TorchCompile]
                 else [])
             ++ [ModelTrain;
                 NewCheckpointManager (checkpoint_folder SampleSetup.job)
                                      (built_interval_type b)
                                      (checkpoint_interval SampleSetup.job)]
  end.
Proof.
  exact (SetupFacts.setup_builds_in_order
           SampleSetup.world SampleSetup.job).
Defined.

End SetupWitnesses.
